(** * Routing core of the real-estate assistant: a shallow embedding

    The development follows the Python package [app]:
    - [graph_state.py]  : [GraphState];
    - [schemas.py]      : [RouterOutput];
    - [graph_nodes.py]  : [get_text_from_message], [has_images_in_message],
                          [route_request], [execute_agent1], [execute_agent2];
    - [graph_builder.py]: [decide_next_node] and the graph wired by
                          [build_graph];
    - [main.py]         : [chat_endpoint].

    Python strings are modelled as [string] (sequences of 8-bit characters);
    [str.lower] is modelled on the ASCII range, where all ten FAQ keywords
    live.  Exceptions are values of an error monad.  The three language-model
    clients of [llm_models.py] are external services: they are section
    variables, functions from what the code sends to either an exception or
    a reply.  Logging has no influence on any result and is left out. *)

From stdpp Require Import base option list strings gmap.
From Stdlib Require Import Ascii String.

(** ** Python strings *)

Module PyStr.

Definition nl : string := String "010"%char EmptyString.
Definition dq : string := String "034"%char EmptyString.

(** [c.lower()] for one character, on the ASCII range. *)
Definition lower_char (c : ascii) : ascii :=
  let n := nat_of_ascii c in
  if (65 <=? n)%nat && (n <=? 90)%nat then ascii_of_nat (n + 32) else c.

(** [s.lower()] *)
Fixpoint lower (s : string) : string :=
  match s with
  | EmptyString => EmptyString
  | String c s' => String (lower_char c) (lower s')
  end.

(** [s.startswith(p)] *)
Definition startswith (s p : string) : bool := String.prefix p s.

(** [needle in hay] for two strings: substring containment. *)
Fixpoint contains (needle hay : string) : bool :=
  String.prefix needle hay ||
  match hay with
  | EmptyString => false
  | String _ hay' => contains needle hay'
  end.

(** [s[:n]] *)
Definition take (n : nat) (s : string) : string := String.substring 0 n s.

(** [sep.join(l)] *)
Definition join (sep : string) (l : list string) : string := String.concat sep l.

(** Truth value of a string: [bool(s)]. *)
Definition truthy (s : string) : bool :=
  match s with EmptyString => false | _ => true end.

End PyStr.

(** Truth value of an [Optional[str]]: [None] and [""] are both false. *)
Definition truthy_opt (o : option string) : bool :=
  match o with
  | None => false
  | Some s => PyStr.truthy s
  end.

(** [o or default] for an [Optional[str]] and a string default. *)
Definition or_default (o : option string) (default : string) : string :=
  match o with
  | Some s => if PyStr.truthy s then s else default
  | None => default
  end.

(** ** Exceptions *)

(** A Python exception: its class name and [str(e)]. *)
Record Exception := mkException { exc_class : string; exc_str : string }.

Inductive Result (A : Type) : Type :=
| Return (a : A)
| Raise (e : Exception).
Arguments Return {A} a.
Arguments Raise {A} e.

#[global] Instance Result_ret : MRet Result := fun _ a => Return a.
#[global] Instance Result_bind : MBind Result := fun _ _ f m =>
  match m with
  | Return a => f a
  | Raise e => Raise e
  end.

(** [try: body except Exception as e: handler(e)] *)
Definition try_except {A} (body : Result A) (handler : Exception -> Result A) : Result A :=
  match body with
  | Return a => Return a
  | Raise e => handler e
  end.

(** [l[-1]]: raises [IndexError] on the empty list. *)
Definition py_last {A} (l : list A) : Result A :=
  match last l with
  | Some a => Return a
  | None => Raise (mkException "IndexError" "list index out of range")
  end.

(** [l[:-1]] *)
Definition py_init {A} (l : list A) : list A := removelast l.

(** ** Messages (langchain_core.messages) *)

(** One element of a list-valued message content: a bare string or a dict.
    Of a dict the code reads the keys ["type"], ["text"] and ["image_url"];
    [None] stands for an absent key. *)
Record PartDict := mkPartDict {
  d_type : option string;
  d_text : option string;
  d_image_url : option string
}.

Inductive Part :=
| PartStr (s : string)
| PartDict_ (d : PartDict).

Definition text_part (t : string) : Part :=
  PartDict_ (mkPartDict (Some "text") (Some t) None).
Definition image_url_part (url : string) : Part :=
  PartDict_ (mkPartDict (Some "image_url") None (Some url)).

Inductive Content :=
| ContentStr (s : string)
| ContentList (parts : list Part).

Inductive MessageClass := HumanMessageC | AIMessageC | SystemMessageC | ToolMessageC.

#[global] Instance MessageClass_eq_dec : EqDecision MessageClass.
Proof. solve_decision. Defined.

Record BaseMessage := mkMessage { msg_class : MessageClass; content : Content }.

Definition HumanMessage (c : Content) : BaseMessage := mkMessage HumanMessageC c.
Definition AIMessage (c : Content) : BaseMessage := mkMessage AIMessageC c.
Definition SystemMessage (c : Content) : BaseMessage := mkMessage SystemMessageC c.

Definition isinstance (m : BaseMessage) (c : MessageClass) : bool :=
  bool_decide (msg_class m = c).

(** ** graph_state.py and schemas.py *)

Record GraphState := mkState {
  messages : list BaseMessage;
  agent_decision : option string;
  error : option string
}.

(** The dict a node returns: [None] stands for an absent key. *)
Record Update := mkUpdate {
  upd_agent_decision : option string;
  upd_messages : option (list BaseMessage);
  upd_error : option string
}.

(** [Literal["agent1", "agent2", "clarify"]] *)
Inductive RouterDecision := agent1 | agent2 | clarify.

#[global] Instance RouterDecision_eq_dec : EqDecision RouterDecision.
Proof. solve_decision. Defined.

Definition decision_value (d : RouterDecision) : string :=
  match d with
  | agent1 => "agent1"
  | agent2 => "agent2"
  | clarify => "clarify"
  end.

Record RouterOutput := mkRouterOutput {
  decision : RouterDecision;
  clarification_message : option string
}.

(** ** graph_nodes.py *)

Definition dict_type_is (ty : string) (part : Part) : bool :=
  match part with
  | PartDict_ d => bool_decide (d_type d = Some ty)
  | PartStr _ => false
  end.

(** [part.get("text", "")] on a dict part. *)
Definition part_get_text (part : Part) : string :=
  match part with
  | PartDict_ d => default "" (d_text d)
  | PartStr _ => ""
  end.

(** The [for part in message.content] loop of [get_text_from_message]: it
    returns from inside the loop at the first dict part of type ["text"]. *)
Fixpoint get_text_loop (parts : list Part) : option string :=
  match parts with
  | [] => None
  | part :: rest =>
      if dict_type_is "text" part then Some (part_get_text part)
      else get_text_loop rest
  end.

Definition get_text_from_message (message : BaseMessage) : string :=
  match content message with
  | ContentStr s => s
  | ContentList parts => default "" (get_text_loop parts)
  end.

Definition has_images_in_message (message : BaseMessage) : bool :=
  match content message with
  | ContentList parts => existsb (dict_type_is "image_url") parts
  | ContentStr _ => false
  end.

Definition faq_keywords : list string :=
  ["lease"; "rent"; "landlord"; "tenant"; "deposit"; "agreement";
   "eviction"; "notice"; "law"; "rights"].

Definition NO_MESSAGE_TEXT : string :=
  "Something went wrong, no user message found.".
Definition NO_MESSAGE_ERROR : string :=
  "Routing failed: No messages in state.".
Definition UPLOAD_IMAGE_TEXT : string :=
  "It looks like you might need help with a visual issue, but you didn't provide an image in your last message. Could you upload one? Or is your question about something else?".
Definition HOW_CAN_I_HELP_TEXT : string :=
  "How can I help you further? Please ask a question about a property issue (with an image if needed) or a tenancy topic.".
Definition ROUTING_APOLOGY_TEXT : string :=
  "Sorry, I encountered an issue routing your request. Could you please rephrase or specify if it's about a visual issue (with image) or a tenancy question?".
Definition AGENT1_APOLOGY_TEXT : string :=
  "Sorry, I encountered an error analyzing the image(s).".
Definition AGENT2_APOLOGY_TEXT : string :=
  "Sorry, I encountered an error answering your question.".

(** The role-prefixed transcript line of one message. *)
Definition history_line (msg : BaseMessage) : string :=
  (if isinstance msg HumanMessageC then "User" else "Assistant")
    +:+ ": " +:+ get_text_from_message msg.

Definition conversation_history_text (msgs : list BaseMessage) : string :=
  PyStr.join PyStr.nl (map history_line msgs).

(** The f-string [prompt_text] of [route_request]. *)
Definition router_prompt (history : string) (has_images : bool) : string :=
  PyStr.join PyStr.nl [
    "You are an expert router for a real estate assistant chatbot. Classify the user's *latest* request based on the conversation history provided.";
    "";
    "Available Agents:";
    "1.  **Agent 1 (Issue Detector)**: Handles visual inspection. Requires images *in the latest message*. Choose 'agent1' if images are present in the last message AND the query concerns a visual aspect.";
    "2.  **Agent 2 (Tenancy FAQ)**: Handles text-only tenancy questions (laws, agreements, etc.). Choose 'agent2' if the latest query is about these topics and no relevant images are present in the last message.";
    "3.  **Clarification**: Handles simple conversation, greetings, remembers previous context, or asks for more details. Choose 'clarify' if unsure, if more info is needed (e.g., location), for simple chat (like remembering a name based on history), or if the request doesn't fit Agent 1 or 2. Be friendly and act as an assistant.";
    "";
    "Conversation History:";
    "--- START HISTORY ---";
    history;
    "--- END HISTORY ---";
    "";
    "Images provided in the *latest* user message: " +:+ (if has_images then "Yes" else "No");
    "";
    "Based on the *latest* user request within the context of the history, respond using the 'RouterOutput' structure:";
    "{";
    "  " +:+ PyStr.dq +:+ "decision" +:+ PyStr.dq +:+ ": " +:+ PyStr.dq
         +:+ "'agent1' | 'agent2' | 'clarify'" +:+ PyStr.dq +:+ ",";
    "  " +:+ PyStr.dq +:+ "clarification_message" +:+ PyStr.dq +:+ ": " +:+ PyStr.dq
         +:+ "string | null" +:+ PyStr.dq
         +:+ " # ONLY provide if decision is 'clarify' AND you need to ask the user something OR provide a conversational reply. If you remember something (like a name) just make the decision 'clarify' and set this message to the answer.";
    "}"
  ].

Definition agent1_system_prompt : string :=
  PyStr.join PyStr.nl [
    "You are an expert real estate issue detection assistant. Analyze the provided image(s) and the user's query text from the latest message to identify potential property problems (e.g., water damage, mold, cracks).";
    "";
    "Provide a clear analysis:";
    "1.  **Identify** visible issues.";
    "2.  **Explain** potential causes.";
    "3.  **Suggest** troubleshooting or professional help.";
    "4.  Ask **clarifying questions** if needed.";
    "Be concise and helpful. Base your analysis on the latest user message and images."
  ].

Definition agent2_system_prompt (query_text : string) : string :=
  PyStr.join PyStr.nl [
    "You are a helpful assistant knowledgeable about general real estate tenancy topics (laws, agreements, rent, deposits, eviction etc.). Answer the user's question from their latest message.";
    "";
    "Provide clear, concise information based on common practices.";
    "**Important**: If the question needs specific legal advice or depends on local regulations, state your answer is general and advise the user to mention their location or consult a local expert/organization. Do not invent local laws.";
    "";
    "Focus on the latest user query text: '" +:+ PyStr.take 200 query_text +:+ "...'"
  ].

(** The override logic of [route_request] (the [if]/[elif]/[elif] chain
    after the classifier has answered): from the two facts about the last
    message and the classifier's raw answer to [final_decision] and the
    value of [clarification] after the chain. *)
Definition override_logic (has_images_in_last_message : bool)
    (last_query_text : string) (decision : RouterDecision)
    (clarification : option string) : RouterDecision * option string :=
  let final_decision := decision in
  if has_images_in_last_message && bool_decide (decision = agent2) then
    if negb (existsb (fun keyword => PyStr.contains keyword (PyStr.lower last_query_text))
                     faq_keywords)
    then (agent1, None)
    else (final_decision, clarification)
  else if negb has_images_in_last_message && bool_decide (decision = agent1) then
    (clarify, Some (or_default clarification UPLOAD_IMAGE_TEXT))
  else if bool_decide (final_decision = clarify) && negb (truthy_opt clarification) then
    (final_decision, Some HOW_CAN_I_HELP_TEXT)
  else (final_decision, clarification).

(** The [update_dict] built at the end of the [try] block. *)
Definition router_update (final_decision : RouterDecision) (clarification : option string) : Update :=
  match clarification with
  | Some text =>
      if bool_decide (final_decision = clarify) && PyStr.truthy text then
        mkUpdate (Some (decision_value final_decision))
                 (Some [AIMessage (ContentStr text)]) None
      else mkUpdate (Some (decision_value final_decision)) None None
  | None => mkUpdate (Some (decision_value final_decision)) None None
  end.

Section App.

(** [router_llm.with_structured_output(RouterOutput).ainvoke([SystemMessage(prompt)])] *)
Variable router_llm : string -> Result RouterOutput.
(** [agent1_llm.ainvoke(msgs)] and [agent2_llm.ainvoke(msgs)]: the content
    of the [AIMessage] they answer with. *)
Variable agent1_llm : list BaseMessage -> Result Content.
Variable agent2_llm : list BaseMessage -> Result Content.

Definition route_request (state : GraphState) : Result Update :=
  let messages := messages state in
  match messages with
  | [] =>
      Return (mkUpdate (Some "clarify")
                       (Some [AIMessage (ContentStr NO_MESSAGE_TEXT)])
                       (Some NO_MESSAGE_ERROR))
  | _ =>
      let history := conversation_history_text messages in
      last_message ← py_last messages;
      let last_query_text := get_text_from_message last_message in
      let has_images_in_last_message := has_images_in_message last_message in
      let prompt_text := router_prompt history has_images_in_last_message in
      try_except
        (response_object ← router_llm prompt_text;
         let '(final_decision, clarification) :=
           override_logic has_images_in_last_message last_query_text
                          (decision response_object)
                          (clarification_message response_object) in
         Return (router_update final_decision clarification))
        (fun e =>
           Return (mkUpdate (Some "clarify")
                            (Some [AIMessage (ContentStr ROUTING_APOLOGY_TEXT)])
                            (Some ("Routing failed: " +:+ exc_str e))))
  end.

(** [history + [user_message] if history else [user_message]] *)
Definition messages_to_llm (history : list BaseMessage) (user_message : BaseMessage)
    : list BaseMessage :=
  match history with
  | [] => [user_message]
  | _ => history ++ [user_message]
  end.

Definition execute_agent1 (state : GraphState) : Result Update :=
  user_message ← py_last (messages state);
  let history := py_init (messages state) in
  try_except
    (ai_response ← agent1_llm (SystemMessage (ContentStr agent1_system_prompt)
                                 :: messages_to_llm history user_message);
     Return (mkUpdate None (Some [AIMessage ai_response]) None))
    (fun e =>
       Return (mkUpdate None
                        (Some [AIMessage (ContentStr AGENT1_APOLOGY_TEXT)])
                        (Some ("Agent 1 failed: " +:+ exc_str e)))).

Definition execute_agent2 (state : GraphState) : Result Update :=
  user_message ← py_last (messages state);
  let history := py_init (messages state) in
  let query_text := get_text_from_message user_message in
  try_except
    (ai_response ← agent2_llm (SystemMessage (ContentStr (agent2_system_prompt query_text))
                                 :: messages_to_llm history user_message);
     Return (mkUpdate None (Some [AIMessage ai_response]) None))
    (fun e =>
       Return (mkUpdate None
                        (Some [AIMessage (ContentStr AGENT2_APOLOGY_TEXT)])
                        (Some ("Agent 2 failed: " +:+ exc_str e)))).


(** ** graph_builder.py and the LangGraph engine it configures *)

(** [langgraph.graph.END] *)
Definition END : string := "__end__".

Definition decide_next_node (state : GraphState) : string :=
  let decision := agent_decision state in
  if bool_decide (decision = Some "agent1") then "issue_detector"
  else if bool_decide (decision = Some "agent2") then "faq_agent"
  else if bool_decide (decision = Some "clarify") then "clarify"
  else END.

(** The nodes added by [build_graph]. *)
Inductive Node := router | issue_detector | faq_agent.

Inductive Target := ToNode (n : Node) | ToEND.

Definition node_action (n : Node) : GraphState -> Result Update :=
  match n with
  | router => route_request
  | issue_detector => execute_agent1
  | faq_agent => execute_agent2
  end.

(** The dict given to [add_conditional_edges]; a key that is not in it
    is a [KeyError] of the engine. *)
Definition path_map (key : string) : Result Target :=
  if bool_decide (key = "issue_detector") then Return (ToNode issue_detector)
  else if bool_decide (key = "faq_agent") then Return (ToNode faq_agent)
  else if bool_decide (key = "clarify") then Return ToEND
  else if bool_decide (key = END) then Return ToEND
  else Raise (mkException "KeyError" key).

(** Outgoing edges: the conditional edge of [router], and the two
    [add_edge (_, END)]. *)
Definition next_target (n : Node) (state : GraphState) : Result Target :=
  match n with
  | router => path_map (decide_next_node state)
  | issue_detector => Return ToEND
  | faq_agent => Return ToEND
  end.

(** The reducer [add_messages] of the [messages] channel appends the new
    messages to the stored ones.  (It replaces a stored message only when
    a new one carries the same id; the messages built here carry fresh
    ids, so ids are not modelled.) *)
Definition add_messages (left right : list BaseMessage) : list BaseMessage :=
  left ++ right.

(** How the engine writes a node's returned dict into the state:
    [messages] goes through its reducer, the other keys overwrite. *)
Definition apply_update (state : GraphState) (u : Update) : GraphState :=
  mkState
    (match upd_messages u with
     | Some new => add_messages (messages state) new
     | None => messages state
     end)
    (match upd_agent_decision u with
     | Some d => Some d
     | None => agent_decision state
     end)
    (match upd_error u with
     | Some e => Some e
     | None => error state
     end).

(** One run of the compiled graph: the nodes executed in order, the last
    state that was checkpointed, and the final state or the exception. *)
Record GraphRun := mkRun {
  executed : list Node;
  checkpoint : GraphState;
  outcome : Result GraphState
}.

(** The engine's default bound on the number of steps. *)
Definition recursion_limit : nat := 25.

Fixpoint run_from (fuel : nat) (n : Node) (state : GraphState) : GraphRun :=
  match fuel with
  | O => mkRun [] state (Raise (mkException "GraphRecursionError" "Recursion limit reached"))
  | S fuel' =>
      match node_action n state with
      | Raise e => mkRun [n] state (Raise e)
      | Return u =>
          let state' := apply_update state u in
          match next_target n state' with
          | Raise e => mkRun [n] state' (Raise e)
          | Return ToEND => mkRun [n] state' (Return state')
          | Return (ToNode n') =>
              let r := run_from fuel' n' state' in
              mkRun (n :: executed r) (checkpoint r) (outcome r)
          end
      end
  end.

(** [set_entry_point("router")] *)
Definition run_graph (state : GraphState) : GraphRun :=
  run_from recursion_limit router state.

(** The handlers among the executed nodes. *)
Definition is_handler (n : Node) : bool :=
  match n with
  | router => false
  | issue_detector | faq_agent => true
  end.

Definition handlers_run (r : GraphRun) : list Node :=
  List.filter is_handler (executed r).

(** [MemorySaver]: the checkpointed state of each thread. *)
Definition empty_state : GraphState := mkState [] None None.

(** The input of [ainvoke] is written into the thread's stored state
    like a node's dict: every key of [initial_state] is present. *)
Definition apply_input (stored input : GraphState) : GraphState :=
  mkState (add_messages (messages stored) (messages input))
          (agent_decision input) (error input).

Definition ainvoke (memory : gmap string GraphState) (input : GraphState)
    (thread_id : string) : gmap string GraphState * GraphRun :=
  let stored := default empty_state (memory !! thread_id) in
  let r := run_graph (apply_input stored input) in
  (<[thread_id := checkpoint r]> memory, r).

(** The conversation the store holds for a session. *)
Definition conversation (memory : gmap string GraphState) (session_id : string)
    : list BaseMessage :=
  messages (default empty_state (memory !! session_id)).

(** ** main.py *)

(** [base64.b64encode(image_bytes).decode('utf-8')] *)
Variable b64encode : string -> string.

(** An uploaded file: its name, its MIME type, and what [await image.read()]
    gives. *)
Record UploadFile := mkUploadFile {
  filename : string;
  content_type : option string;
  read : Result string
}.

(** The body of the [for i, image in enumerate(images)] loop: the part
    appended to [input_message_content], if any. *)
Definition image_part (image : UploadFile) : option Part :=
  match content_type image with
  | None => None
  | Some mime_type =>
      if negb (PyStr.truthy mime_type) || negb (PyStr.startswith mime_type "image/")
      then None
      else
        match read image with
        | Raise _ => None
        | Return image_bytes =>
            if negb (PyStr.truthy image_bytes) then None
            else Some (image_url_part
                         ("data:" +:+ mime_type +:+ ";base64," +:+ b64encode image_bytes))
        end
  end.

Definition input_message_content (query : string) (images : list UploadFile) : list Part :=
  text_part query :: omap image_part images.

Record ChatResponse := mkChatResponse { response : string; session_id : string }.

Inductive HTTPResult :=
| HTTP200 (r : ChatResponse)
| HTTPException (status_code : nat) (detail : string).

(** [part["text"]]: a [KeyError] when the key is absent. *)
Definition part_text_item (part : Part) : Result string :=
  match part with
  | PartDict_ d =>
      match d_text d with
      | Some t => Return t
      | None => Raise (mkException "KeyError" "'text'")
      end
  | PartStr _ => Raise (mkException "TypeError" "string indices must be integers")
  end.

(** [[part["text"] for part in content if isinstance(part, dict) and
    part.get("type") == "text"]] *)
Fixpoint text_parts (parts : list Part) : Result (list string) :=
  match parts with
  | [] => Return []
  | part :: rest =>
      if dict_type_is "text" part then
        t ← part_text_item part;
        ts ← text_parts rest;
        Return (t :: ts)
      else text_parts rest
  end.

(** "Handle Graph Response": the [response_text] computed from the final
    state. *)
Definition response_text_of (final_state : GraphState) : Result string :=
  let error_message := error final_state in
  let all_messages := messages final_state in
  let last_message := last all_messages in
  let response_text :=
    if truthy_opt error_message
    then "An error occurred: " +:+ default "" error_message
    else "" in
  match last_message with
  | Some m =>
      if negb (PyStr.truthy response_text) && isinstance m AIMessageC then
        match content m with
        | ContentStr s => Return s
        | ContentList parts =>
            tp ← text_parts parts;
            Return (match tp with
                    | [] => "Received a non-standard response."
                    | _ => PyStr.join PyStr.nl tp
                    end)
        end
      else if negb (PyStr.truthy response_text) then
        if isinstance m HumanMessageC
        then Return "I received your message, but I'm unable to provide a further response at this time."
        else Return "Chatbot failed to generate a valid response."
      else Return response_text
  | None =>
      if negb (PyStr.truthy response_text)
      then Return "Chatbot failed to generate a valid response."
      else Return response_text
  end.

(** [chat_endpoint]: [app_graph_loaded] tells whether [build_graph]
    succeeded at start-up; the store of the graph's checkpointer is
    passed in and returned. *)
Definition chat_endpoint (app_graph_loaded : bool) (memory : gmap string GraphState)
    (session_id query : string) (images : list UploadFile)
    : gmap string GraphState * HTTPResult :=
  if negb app_graph_loaded then
    (memory, HTTPException 503 "Chatbot Service Unavailable: Core component failed to load.")
  else if negb (PyStr.truthy session_id) then
    (memory, HTTPException 400 "session_id is required.")
  else
    let initial_state :=
      mkState [HumanMessage (ContentList (input_message_content query images))]
              None None in
    let '(memory', r) := ainvoke memory initial_state session_id in
    match (final_state ← outcome r; response_text_of final_state) with
    | Return response_text => (memory', HTTP200 (mkChatResponse response_text session_id))
    | Raise _ => (memory', HTTPException 500 "An unexpected server error occurred.")
    end.

End App.


(** [clear_session] of main.py: it receives an optional session id and has
    no access to the graph's store. *)
Record ClearResponse := mkClearResponse {
  clear_message : string;
  clear_session_id : option string
}.

Definition clear_session (session_id : option string) : ClearResponse :=
  if truthy_opt session_id then
    mkClearResponse
      ("Session " +:+ default "" session_id
         +:+ " context clear signaled. Please use a new session_id for the next chat message to start fresh.")
      session_id
  else
    mkClearResponse
      "Context clear signaled. Please use a new session_id for the next chat message to start fresh."
      None.

(** ** config.py *)

(** [os.getenv(key, default)] on an environment. *)
Definition getenv (env : gmap string string) (key fallback : string) : string :=
  default fallback (env !! key).

Record Settings := mkSettings {
  OPENAI_API_KEY : string;
  VISION_MODEL_NAME : string;
  ROUTING_MODEL_NAME : string;
  FAQ_MODEL_NAME : string
}.

Definition API_KEY_WARNING : string :=
  "WARNING: OPENAI_API_KEY not found or using default. Please set it in your .env file.".

(** The body of [class Settings]: the settings read from the environment,
    and the lines it prints. *)
Definition load_settings (env : gmap string string) : Settings * list string :=
  let key := getenv env "OPENAI_API_KEY" "YOUR_DEFAULT_KEY_HERE" in
  let settings :=
    mkSettings key
               (getenv env "VISION_MODEL_NAME" "gpt-4o")
               (getenv env "ROUTING_MODEL_NAME" "gpt-4o")
               (getenv env "FAQ_MODEL_NAME" "gpt-4o") in
  if negb (PyStr.truthy key) || PyStr.contains "YOUR_DEFAULT_KEY_HERE" key
  then (settings, [API_KEY_WARNING])
  else (settings, []).

(** ** Vocabulary of the statements *)

(** [k] occurs in [t] up to the case of letters: some substring of [t]
    has the same lower-case form as [k]. *)
Definition occurs_ci (k t : string) : Prop :=
  exists pre mid post, t = pre +:+ mid +:+ post /\ PyStr.lower mid = PyStr.lower k.

(** The prompt [route_request] sends for a conversation whose last message
    is [last_message]. *)
Definition prompt_for (msgs : list BaseMessage) (last_message : BaseMessage) : string :=
  router_prompt (conversation_history_text msgs) (has_images_in_message last_message).

(** The state the graph starts from when [chat_endpoint] invokes it: the
    session's stored state with the new user turn written into it. *)
Definition request_state (b64encode : string -> string)
    (memory : gmap string GraphState) (session_id query : string)
    (images : list UploadFile) : GraphState :=
  apply_input (default empty_state (memory !! session_id))
    (mkState [HumanMessage (ContentList (input_message_content b64encode query images))]
             None None).

(** The specification's [last_text]: the concatenation of the texts of all
    text parts of a turn. *)
Fixpoint spec_text_concat (parts : list Part) : string :=
  match parts with
  | [] => ""
  | part :: rest =>
      if dict_type_is "text" part
      then part_get_text part +:+ spec_text_concat rest
      else spec_text_concat rest
  end.

(** The text parts of a turn. *)
Definition text_parts_of (parts : list Part) : list Part :=
  List.filter (dict_type_is "text") parts.





(** ** Sample requests *)

Definition sample_image_url : string := "data:image/png;base64,iVBORw0KGgo=".

Definition mold_turn : BaseMessage :=
  HumanMessage (ContentList [text_part "there's mold on my ceiling";
                             image_url_part sample_image_url]).

Definition landlord_turn : BaseMessage :=
  HumanMessage (ContentList [text_part "Is my LANDLORD allowed to leave it like this?";
                             image_url_part sample_image_url]).


Definition crack_turn : BaseMessage :=
  HumanMessage (ContentList [text_part "what is this crack in my wall"]).

Definition split_text_turn : BaseMessage :=
  HumanMessage (ContentList [text_part "look at this ";
                             image_url_part sample_image_url;
                             text_part "it is about my lease"]).

Definition two_text_turn : BaseMessage :=
  HumanMessage (ContentList [text_part "is this covered by "; text_part "my lease"]).

(** A classifier that answers [d] with clarification [c] on every prompt. *)
Definition llm_answers (d : RouterDecision) (c : option string)
    : string -> Result RouterOutput :=
  fun _ => Return (mkRouterOutput d c).

(** A classifier whose call times out. *)
Definition timeout_error : Exception :=
  mkException "APITimeoutError" "Request timed out.".
Definition llm_times_out : string -> Result RouterOutput :=
  fun _ => Raise timeout_error.

(** A handler model that answers [t] on every call. *)
Definition agent_replies (t : string) : list BaseMessage -> Result Content :=
  fun _ => Return (ContentStr t).

(** ** Vocabulary of the further properties *)

(** An upload that passes the checks of [chat_endpoint]'s loop: an
    ["image/..."] MIME type and a read that succeeds with some bytes. *)
Definition valid_upload (image : UploadFile) : Prop :=
  exists mime_type image_bytes,
    content_type image = Some mime_type /\
    PyStr.startswith mime_type "image/" = true /\
    read image = Return image_bytes /\
    image_bytes <> "".

(** A dict part that has the key ["text"]. *)
Definition has_text_key (part : Part) : bool :=
  match part with
  | PartDict_ d => bool_decide (is_Some (d_text d))
  | PartStr _ => false
  end.

(** What [route_request] returns once the classifier has answered. *)
Definition router_result (has_images : bool) (text : string)
    (d : RouterDecision) (c : option string) : Update :=
  let '(final_decision, clarification) := override_logic has_images text d c in
  router_update final_decision clarification.

(** Sample uploads. *)
Definition png_upload : UploadFile :=
  mkUploadFile "ceiling.png" (Some "image/png") (Return "PNGDATA").
Definition pdf_upload : UploadFile :=
  mkUploadFile "lease.pdf" (Some "application/pdf") (Return "PDFDATA").

(** * Properties *)

(** ** Strings *)

Module PyStrFacts.
Import PyStr.

Lemma lower_app (a b : string) : lower (a +:+ b) = lower a +:+ lower b.
Proof. induction a as [|c a IH]; simpl; [done | by rewrite IH]. Qed.

Lemma lower_length (s : string) : String.length (lower s) = String.length s.
Proof. induction s as [|c s IH]; simpl; [done | by rewrite IH]. Qed.

(** A split of [lower t] comes from a split of [t]. *)
Lemma lower_split (t a b : string) :
  lower t = a +:+ b -> exists x y, t = x +:+ y /\ lower x = a /\ lower y = b.
Proof.
  revert t. induction a as [|c a IH]; intros t H.
  - exists EmptyString, t. by simpl in *.
  - destruct t as [|d t]; simpl in H; [discriminate|].
    injection H as Hc Ht. destruct (IH _ Ht) as (x & y & -> & Hx & Hy).
    exists (String d x), y. simpl. by rewrite Hc, Hx.
Qed.

Lemma prefix_iff (p s : string) :
  String.prefix p s = true <-> exists post, s = p +:+ post.
Proof.
  revert s. induction p as [|c p IH]; intros s; simpl.
  - destruct s; split; eauto.
  - destruct s as [|d s]; simpl.
    + split; [discriminate | intros [post H]; discriminate].
    + destruct (ascii_dec c d) as [->|Hne].
      * rewrite IH. split; intros [post H]; exists post; [by rewrite H | by injection H].
      * split; [discriminate | intros [post H]; injection H; congruence].
Qed.

(** [contains] is substring containment. *)
Lemma contains_iff (needle hay : string) :
  contains needle hay = true <-> exists pre post, hay = pre +:+ needle +:+ post.
Proof.
  induction hay as [|c hay IH].
  - cbn [contains]. rewrite orb_false_r, prefix_iff. split.
    + intros [post H]. by exists EmptyString, post.
    + intros (pre & post & H). destruct pre; simpl in H; [eauto | discriminate].
  - cbn [contains]. rewrite orb_true_iff, prefix_iff, IH. split.
    + intros [[post H] | (pre & post & H)].
      * by exists EmptyString, post.
      * exists (String c pre), post. simpl. by rewrite H.
    + intros (pre & post & H). destruct pre as [|d pre]; simpl in H.
      * left. eauto.
      * right. injection H as _ H. eauto.
Qed.

End PyStrFacts.

Lemma contains_lower_occurs_ci (k t : string) :
  PyStr.lower k = k ->
  PyStr.contains k (PyStr.lower t) = true <-> occurs_ci k t.
Proof.
  intros Hk. rewrite PyStrFacts.contains_iff. unfold occurs_ci. rewrite Hk. split.
  - intros (pre & post & H).
    apply PyStrFacts.lower_split in H as (x & y & -> & Hx & Hy).
    apply PyStrFacts.lower_split in Hy as (m & z & -> & Hm & Hz).
    by exists x, m, z.
  - intros (pre & mid & post & -> & Hm).
    exists (PyStr.lower pre), (PyStr.lower post).
    by rewrite !PyStrFacts.lower_app, Hm.
Qed.

Lemma faq_keywords_lower (k : string) : k ∈ faq_keywords -> PyStr.lower k = k.
Proof.
  unfold faq_keywords. rewrite !elem_of_cons, elem_of_nil.
  intros H. repeat (destruct H as [-> | H]; [reflexivity|]). done.
Qed.

(** The keyword scan of [route_request] finds a keyword exactly when one
    occurs, up to case, in the scanned text. *)
Lemma keyword_scan_iff (text : string) :
  existsb (fun keyword => PyStr.contains keyword (PyStr.lower text)) faq_keywords = true
  <-> exists k, k ∈ faq_keywords /\ occurs_ci k text.
Proof.
  rewrite existsb_exists. split.
  - intros (k & Hin & Hc). exists k. apply list_elem_of_In in Hin. split; [done|].
    by apply contains_lower_occurs_ci; [apply faq_keywords_lower|].
  - intros (k & Hin & Hc). exists k. split; [by apply list_elem_of_In|].
    by apply contains_lower_occurs_ci; [apply faq_keywords_lower|].
Qed.

(** ** The router *)

(** [route_request] on a non-empty conversation, the classifier's outcome
    given. *)
Lemma route_request_nonempty router_llm state last_message :
  last (messages state) = Some last_message ->
  route_request router_llm state =
    try_except
      (response_object ← router_llm (prompt_for (messages state) last_message);
       let '(final_decision, clarification) :=
         override_logic (has_images_in_message last_message)
                        (get_text_from_message last_message)
                        (decision response_object)
                        (clarification_message response_object) in
       Return (router_update final_decision clarification))
      (fun e =>
         Return (mkUpdate (Some "clarify")
                          (Some [AIMessage (ContentStr ROUTING_APOLOGY_TEXT)])
                          (Some ("Routing failed: " +:+ exc_str e)))).
Proof.
  intros Hlast. unfold route_request, py_last. rewrite Hlast.
  destruct (messages state); [discriminate | reflexivity].
Qed.

Lemma route_request_ok router_llm state last_message d c :
  last (messages state) = Some last_message ->
  router_llm (prompt_for (messages state) last_message) = Return (mkRouterOutput d c) ->
  route_request router_llm state =
    Return (let '(final_decision, clarification) :=
              override_logic (has_images_in_message last_message)
                             (get_text_from_message last_message) d c in
            router_update final_decision clarification).
Proof.
  intros Hlast Hllm. rewrite (route_request_nonempty _ _ _ Hlast), Hllm. simpl.
  by destruct (override_logic _ _ _ _).
Qed.

Lemma route_request_raise router_llm state last_message e :
  last (messages state) = Some last_message ->
  router_llm (prompt_for (messages state) last_message) = Raise e ->
  route_request router_llm state =
    Return (mkUpdate (Some "clarify")
                     (Some [AIMessage (ContentStr ROUTING_APOLOGY_TEXT)])
                     (Some ("Routing failed: " +:+ exc_str e))).
Proof.
  intros Hlast Hllm. by rewrite (route_request_nonempty _ _ _ Hlast), Hllm.
Qed.

Lemma or_default_eq (o : option string) (d : string) :
  or_default o d = if truthy_opt o then default "" o else d.
Proof. destruct o as [s|]; simpl; [by destruct (PyStr.truthy s) | done]. Qed.

(** The override chain, by cases on the classifier's decision and on the
    presence of images. *)
Lemma override_logic_cases hi text d c :
  override_logic hi text d c =
    match d, hi with
    | agent2, true =>
        if existsb (fun keyword => PyStr.contains keyword (PyStr.lower text)) faq_keywords
        then (agent2, c) else (agent1, None)
    | agent2, false => (agent2, c)
    | agent1, true => (agent1, c)
    | agent1, false => (clarify, Some (or_default c UPLOAD_IMAGE_TEXT))
    | clarify, _ =>
        if truthy_opt c then (clarify, c) else (clarify, Some HOW_CAN_I_HELP_TEXT)
    end.
Proof.
  unfold override_logic.
  destruct hi, d; try reflexivity.
  - by destruct (existsb _ faq_keywords).
  - by destruct (truthy_opt c).
  - by destruct (truthy_opt c).
Qed.

(** After the override chain a clarify decision always carries a text. *)
Lemma override_logic_clarify_text hi text d c final c' :
  override_logic hi text d c = (final, c') ->
  final = clarify -> truthy_opt c' = true.
Proof.
  rewrite override_logic_cases. intros H ->.
  destruct d, hi; try destruct (existsb _ faq_keywords);
    try destruct (truthy_opt c) eqn:Hc; inversion H; subst; try done.
  all: rewrite or_default_eq; by destruct c as [[|]|].
Qed.

Lemma router_update_not_clarify final c :
  final <> clarify ->
  router_update final c = mkUpdate (Some (decision_value final)) None None.
Proof. intros H. unfold router_update. destruct c, final; done. Qed.

Lemma router_update_clarify c :
  truthy_opt c = true ->
  router_update clarify c =
    mkUpdate (Some "clarify") (Some [AIMessage (ContentStr (default "" c))]) None.
Proof. destruct c as [s|]; [|done]. simpl. unfold router_update. simpl. by intros ->. Qed.

(** [route_request] never raises; it always names one of the three
    decisions, appends one assistant turn with clarify and none otherwise,
    and sets the error field only on its two failure paths. *)
Lemma route_request_total router_llm state :
  exists u d, route_request router_llm state = Return u /\
    upd_agent_decision u = Some (decision_value d) /\
    match d with
    | clarify => exists text, upd_messages u = Some [AIMessage (ContentStr text)]
    | _ => upd_messages u = None /\ upd_error u = None /\ messages state <> []
    end /\
    (upd_error u = None \/
     (messages state = [] /\ upd_error u = Some NO_MESSAGE_ERROR) \/
     exists m e, last (messages state) = Some m /\
       router_llm (prompt_for (messages state) m) = Raise e /\
       upd_error u = Some ("Routing failed: " +:+ exc_str e)).
Proof.
  destruct (last (messages state)) as [m|] eqn:Hlast.
  - assert (Hne : messages state <> []) by (intros E; rewrite E in Hlast; discriminate).
    rewrite (route_request_nonempty _ _ _ Hlast).
    destruct (router_llm _) as [[d c]|e] eqn:Hllm; simpl.
    + destruct (override_logic _ _ d c) as [final c'] eqn:Hov.
      exists (router_update final c'), final. split; [done|].
      destruct (decide (final = clarify)) as [->|Hf].
      * rewrite router_update_clarify by (by eapply override_logic_clarify_text).
        split; [done|]. split; [eauto | by left].
      * rewrite router_update_not_clarify by done.
        split; [done|]. split; [by destruct final | by left].
    + eexists _, clarify. split; [done|]. split; [done|]. split; [eauto|].
      right; right. by exists m, e.
  - apply last_None in Hlast. unfold route_request. rewrite Hlast.
    eexists _, clarify. split; [done|]. split; [done|]. split; [eauto|].
    right; left. done.
Qed.

(** C2: when the last turn has no image the router never returns
    visual_issue; a classifier answer of visual_issue becomes clarify, with
    the classifier's clarification text if it gave a non-empty one and the
    fixed upload-an-image message otherwise. *)
Theorem C2_no_image_never_visual_issue router_llm state last_message :
  last (messages state) = Some last_message ->
  has_images_in_message last_message = false ->
  (exists u, route_request router_llm state = Return u /\
             upd_agent_decision u <> Some "agent1")
  /\
  (forall c,
     router_llm (prompt_for (messages state) last_message)
       = Return (mkRouterOutput agent1 c) ->
     route_request router_llm state =
       Return (mkUpdate (Some "clarify")
                 (Some [AIMessage (ContentStr
                    (if truthy_opt c then default "" c else UPLOAD_IMAGE_TEXT))])
                 None)).
Proof.
  intros Hlast Himg. split.
  - rewrite (route_request_nonempty _ _ _ Hlast), Himg.
    destruct (router_llm _) as [[d c]|e]; simpl.
    + rewrite override_logic_cases.
      destruct d; [| |destruct (truthy_opt c) eqn:Hc].
      * rewrite router_update_clarify by (rewrite or_default_eq; by destruct c as [[|]|]).
        eexists. split; done.
      * rewrite router_update_not_clarify by done. eexists. split; done.
      * rewrite router_update_clarify by done. eexists. split; done.
      * rewrite router_update_clarify by done. eexists. split; done.
    + eexists. split; done.
  - intros c Hllm.
    rewrite (route_request_ok _ _ _ _ _ Hlast Hllm), Himg, override_logic_cases.
    rewrite router_update_clarify by (rewrite or_default_eq; by destruct c as [[|]|]).
    simpl. by rewrite or_default_eq.
Qed.

(** ** The handlers and the graph *)

(** A handler that finds a last message never raises: it returns one
    assistant turn, the model's answer or the fixed apology. *)
Lemma execute_agent1_total agent1_llm state m :
  last (messages state) = Some m ->
  exists reply err,
    execute_agent1 agent1_llm state = Return (mkUpdate None (Some [AIMessage reply]) err) /\
    (err = None \/
     exists msgs e, agent1_llm msgs = Raise e /\
       err = Some ("Agent 1 failed: " +:+ exc_str e)).
Proof.
  intros Hlast. unfold execute_agent1, py_last. rewrite Hlast. simpl.
  destruct (agent1_llm _) as [reply|e] eqn:Hllm; simpl.
  - exists reply, None. split; [done | by left].
  - eexists _, _. split; [done|]. right. eauto.
Qed.

Lemma execute_agent2_total agent2_llm state m :
  last (messages state) = Some m ->
  exists reply err,
    execute_agent2 agent2_llm state = Return (mkUpdate None (Some [AIMessage reply]) err) /\
    (err = None \/
     exists msgs e, agent2_llm msgs = Raise e /\
       err = Some ("Agent 2 failed: " +:+ exc_str e)).
Proof.
  intros Hlast. unfold execute_agent2, py_last. rewrite Hlast. simpl.
  destruct (agent2_llm _) as [reply|e] eqn:Hllm; simpl.
  - exists reply, None. split; [done | by left].
  - eexists _, _. split; [done|]. right. eauto.
Qed.

Lemma next_target_router state d :
  agent_decision state = Some (decision_value d) ->
  next_target router state =
    Return (match d with
            | agent1 => ToNode issue_detector
            | agent2 => ToNode faq_agent
            | clarify => ToEND
            end).
Proof.
  intros H. unfold next_target, decide_next_node. rewrite H. by destruct d.
Qed.

Section Graph.

Variable router_llm : string -> Result RouterOutput.
Variable agent1_llm agent2_llm : list BaseMessage -> Result Content.

Local Abbreviation run := (run_graph router_llm agent1_llm agent2_llm).
Local Abbreviation run_from' := (run_from router_llm agent1_llm agent2_llm).
Local Abbreviation node_action' := (node_action router_llm agent1_llm agent2_llm).

Lemma run_from_S fuel n state :
  run_from' (S fuel) n state =
    match node_action' n state with
    | Raise e => mkRun [n] state (Raise e)
    | Return u =>
        let state' := apply_update state u in
        match next_target n state' with
        | Raise e => mkRun [n] state' (Raise e)
        | Return ToEND => mkRun [n] state' (Return state')
        | Return (ToNode n') =>
            let r := run_from' fuel n' state' in
            mkRun (n :: executed r) (checkpoint r) (outcome r)
        end
    end.
Proof. reflexivity. Qed.

(** A node whose action returns and whose edge leads to [END]. *)
Lemma run_from_to_end fuel n state u :
  node_action' n state = Return u ->
  next_target n (apply_update state u) = Return ToEND ->
  run_from' (S fuel) n state =
    mkRun [n] (apply_update state u) (Return (apply_update state u)).
Proof. intros Ha Ht. by rewrite run_from_S, Ha; cbn zeta; rewrite Ht. Qed.

(** A node whose action returns and whose edge leads to a node. *)
Lemma run_from_to_node fuel n n' state u :
  node_action' n state = Return u ->
  next_target n (apply_update state u) = Return (ToNode n') ->
  run_from' (S fuel) n state =
    let r := run_from' fuel n' (apply_update state u) in
    mkRun (n :: executed r) (checkpoint r) (outcome r).
Proof. intros Ha Ht. by rewrite run_from_S, Ha; cbn zeta; rewrite Ht. Qed.

(** One run of the graph never raises.  It executes the router and then
    exactly the branch the decision selects, appends exactly one
    assistant turn, and sets the error field only when the router or the
    handler failed. *)
Lemma run_graph_summary state :
  exists final reply,
    run state = mkRun (executed (run state)) final (Return final) /\
    messages final = messages state ++ [reply] /\
    msg_class reply = AIMessageC /\
    ((agent_decision final = Some "agent1" /\
      executed (run state) = [router; issue_detector]) \/
     (agent_decision final = Some "agent2" /\
      executed (run state) = [router; faq_agent]) \/
     (agent_decision final = Some "clarify" /\
      executed (run state) = [router])) /\
    (error final = error state \/
     (messages state = [] /\ error final = Some NO_MESSAGE_ERROR) \/
     (exists m e, last (messages state) = Some m /\
        router_llm (prompt_for (messages state) m) = Raise e /\
        error final = Some ("Routing failed: " +:+ exc_str e)) \/
     (exists msgs e, agent1_llm msgs = Raise e /\
        error final = Some ("Agent 1 failed: " +:+ exc_str e)) \/
     (exists msgs e, agent2_llm msgs = Raise e /\
        error final = Some ("Agent 2 failed: " +:+ exc_str e))).
Proof.
  destruct (route_request_total router_llm state) as (u & d & Hr & Hd & Hm & He).
  assert (Hnext := next_target_router (apply_update state u) d).
  assert (Hd' : agent_decision (apply_update state u) = Some (decision_value d)).
  { unfold apply_update. cbn [agent_decision]. by rewrite Hd. }
  specialize (Hnext Hd'). clear Hd'.
  unfold run_graph, recursion_limit.
  destruct u as [ud um ue]. cbn [upd_agent_decision upd_messages upd_error] in *.
  destruct d.
  - destruct Hm as (-> & -> & Hne). subst ud.
    destruct (last (messages state)) as [m|] eqn:Hlast;
      [|by apply last_None in Hlast].
    destruct (execute_agent1_total agent1_llm
                (apply_update state (mkUpdate (Some (decision_value agent1)) None None)) m)
      as (reply & err & Hex & Herr); [done|].
    rewrite (run_from_to_node _ router issue_detector _ _ Hr Hnext).
    rewrite (run_from_to_end _ issue_detector _ _ Hex eq_refl).
    eexists _, (AIMessage reply). split; [reflexivity|].
    split; [reflexivity|]. split; [reflexivity|].
    split; [left; split; reflexivity|].
    destruct Herr as [-> | (msgs & e & Hllm & ->)].
    + by left.
    + right; right; right; left. by exists msgs, e.
  - destruct Hm as (-> & -> & Hne). subst ud.
    destruct (last (messages state)) as [m|] eqn:Hlast;
      [|by apply last_None in Hlast].
    destruct (execute_agent2_total agent2_llm
                (apply_update state (mkUpdate (Some (decision_value agent2)) None None)) m)
      as (reply & err & Hex & Herr); [done|].
    rewrite (run_from_to_node _ router faq_agent _ _ Hr Hnext).
    rewrite (run_from_to_end _ faq_agent _ _ Hex eq_refl).
    eexists _, (AIMessage reply). split; [reflexivity|].
    split; [reflexivity|]. split; [reflexivity|].
    split; [right; left; split; reflexivity|].
    destruct Herr as [-> | (msgs & e & Hllm & ->)].
    + by left.
    + right; right; right; right. by exists msgs, e.
  - destruct Hm as (text & ->). subst ud.
    rewrite (run_from_to_end _ router _ _ Hr Hnext).
    eexists _, (AIMessage (ContentStr text)). split; [reflexivity|].
    split; [reflexivity|]. split; [reflexivity|].
    split; [right; right; split; reflexivity|].
    destruct He as [-> | [(Hnil & ->) | (m & e & Hlast & Hllm & ->)]].
    + by left.
    + right; left. done.
    + right; right; left. by exists m, e.
Qed.

End Graph.

(** ** Requests *)

Section Requests.

Variable router_llm : string -> Result RouterOutput.
Variable agent1_llm agent2_llm : list BaseMessage -> Result Content.
Variable b64encode : string -> string.

Local Abbreviation run := (run_graph router_llm agent1_llm agent2_llm).
Local Abbreviation chat :=
  (chat_endpoint router_llm agent1_llm agent2_llm b64encode true).

Lemma bind_Return {A B} (f : A -> Result B) (a : A) : mbind f (Return a) = f a.
Proof. reflexivity. Qed.

(** [chat_endpoint] with a loaded graph and a non-empty session id. *)
Lemma chat_endpoint_run memory session_id query images :
  PyStr.truthy session_id = true ->
  chat memory session_id query images =
    let r := run (request_state b64encode memory session_id query images) in
    (<[session_id := checkpoint r]> memory,
     match (final_state ← outcome r; response_text_of final_state) with
     | Return response_text => HTTP200 (mkChatResponse response_text session_id)
     | Raise _ => HTTPException 500 "An unexpected server error occurred."
     end).
Proof.
  intros Hsid. unfold chat_endpoint, ainvoke, request_state. rewrite Hsid.
  change (negb true) with false. cbv iota zeta.
  by destruct (_ ← outcome _; response_text_of _).
Qed.

(** A non-empty error field takes precedence over the last message. *)
Lemma response_text_of_error final err :
  error final = Some err -> PyStr.truthy err = true ->
  response_text_of final = Return ("An error occurred: " +:+ err).
Proof.
  intros He Ht. unfold response_text_of. rewrite He. cbn [truthy_opt default].
  rewrite Ht. change (PyStr.truthy ("An error occurred: " +:+ err)) with true.
  change (negb true) with false. cbv iota. cbn [andb].
  by destruct (last (messages final)).
Qed.

End Requests.

Lemma request_state_messages b64encode memory session_id query images :
  messages (request_state b64encode memory session_id query images) =
    conversation memory session_id ++
    [HumanMessage (ContentList (input_message_content b64encode query images))].
Proof. reflexivity. Qed.

(** C3: every run of the graph ends normally after the router and exactly
    the branch its decision selects: the issue detector for agent1, the FAQ
    agent for agent2, no handler for clarify; never two handlers, and never
    no handler with a decision other than clarify.  On the conditional
    edge, agent1 leads to the issue-detector node, agent2 to the FAQ node,
    clarify to the end, and any other or missing decision value to the end
    as well. *)
Theorem C3_exactly_one_branch router_llm agent1_llm agent2_llm state :
  let r := run_graph router_llm agent1_llm agent2_llm state in
  (exists final, outcome r = Return final /\
     ((agent_decision final = Some "agent1" /\
       executed r = [router; issue_detector] /\ handlers_run r = [issue_detector]) \/
      (agent_decision final = Some "agent2" /\
       executed r = [router; faq_agent] /\ handlers_run r = [faq_agent]) \/
      (agent_decision final = Some "clarify" /\
       executed r = [router] /\ handlers_run r = [])))
  /\ node_action router_llm agent1_llm agent2_llm issue_detector
       = execute_agent1 agent1_llm
  /\ node_action router_llm agent1_llm agent2_llm faq_agent
       = execute_agent2 agent2_llm
  /\ (forall s, agent_decision s = Some "agent1" ->
        next_target router s = Return (ToNode issue_detector))
  /\ (forall s, agent_decision s = Some "agent2" ->
        next_target router s = Return (ToNode faq_agent))
  /\ (forall s, agent_decision s = Some "clarify" ->
        next_target router s = Return ToEND)
  /\ (forall s, agent_decision s <> Some "agent1" ->
        agent_decision s <> Some "agent2" ->
        agent_decision s <> Some "clarify" ->
        decide_next_node s = END /\ next_target router s = Return ToEND).
Proof.
  intros r. split.
  - destruct (run_graph_summary router_llm agent1_llm agent2_llm state)
      as (final & reply & Hrun & _ & _ & Hbranch & _).
    exists final. split; [subst r; by rewrite Hrun|].
    unfold handlers_run.
    destruct Hbranch as [[Hd Hex] | [[Hd Hex] | [Hd Hex]]]; subst r; rewrite Hex.
    + left. done.
    + right; left. done.
    + right; right. done.
  - split; [reflexivity|]. split; [reflexivity|].
    split; [intros s H; exact (next_target_router s agent1 H)|].
    split; [intros s H; exact (next_target_router s agent2 H)|].
    split; [intros s H; exact (next_target_router s clarify H)|].
    intros s H1 H2 H3. unfold next_target, decide_next_node.
    rewrite !bool_decide_eq_false_2 by done. done.
Qed.

(** C4: when the classifier call raises, on a conversation with at least
    one turn, the router does not raise: it returns clarify, the fixed
    apology turn, and the failure in the error field; the graph then ends
    without running a handler. *)
Theorem C4_classifier_failure_recovered router_llm agent1_llm agent2_llm
    state last_message e :
  last (messages state) = Some last_message ->
  router_llm (prompt_for (messages state) last_message) = Raise e ->
  let u := mkUpdate (Some "clarify")
                    (Some [AIMessage (ContentStr ROUTING_APOLOGY_TEXT)])
                    (Some ("Routing failed: " +:+ exc_str e)) in
  route_request router_llm state = Return u /\
  run_graph router_llm agent1_llm agent2_llm state
    = mkRun [router] (apply_update state u) (Return (apply_update state u)) /\
  handlers_run (run_graph router_llm agent1_llm agent2_llm state) = [] /\
  messages (apply_update state u)
    = messages state ++ [AIMessage (ContentStr ROUTING_APOLOGY_TEXT)] /\
  agent_decision (apply_update state u) = Some "clarify" /\
  error (apply_update state u) = Some ("Routing failed: " +:+ exc_str e).
Proof.
  intros Hlast Hllm u.
  pose proof (route_request_raise _ _ _ _ Hlast Hllm) as Hr. fold u in Hr.
  assert (Hrun : run_graph router_llm agent1_llm agent2_llm state
                 = mkRun [router] (apply_update state u) (Return (apply_update state u))).
  { unfold run_graph, recursion_limit.
    apply (run_from_to_end router_llm agent1_llm agent2_llm _ router _ u Hr).
    exact (next_target_router (apply_update state u) clarify eq_refl). }
  split; [done|]. split; [done|]. split; [by rewrite Hrun|]. done.
Qed.

(** C5: on a conversation without turns the router does not raise: it
    returns clarify, one generic apology turn, and the failure in the
    error field; the graph then ends with that turn appended and no
    handler run. *)
Theorem C5_no_messages_recovered router_llm agent1_llm agent2_llm state :
  messages state = [] ->
  let u := mkUpdate (Some "clarify")
                    (Some [AIMessage (ContentStr NO_MESSAGE_TEXT)])
                    (Some NO_MESSAGE_ERROR) in
  route_request router_llm state = Return u /\
  run_graph router_llm agent1_llm agent2_llm state
    = mkRun [router] (apply_update state u) (Return (apply_update state u)) /\
  messages (apply_update state u) = [AIMessage (ContentStr NO_MESSAGE_TEXT)] /\
  agent_decision (apply_update state u) = Some "clarify" /\
  error (apply_update state u) = Some NO_MESSAGE_ERROR.
Proof.
  intros Hnil u.
  assert (Hr : route_request router_llm state = Return u)
    by (unfold route_request; by rewrite Hnil).
  split; [exact Hr|]. split.
  - unfold run_graph, recursion_limit.
    apply (run_from_to_end router_llm agent1_llm agent2_llm _ router _ u Hr).
    exact (next_target_router (apply_update state u) clarify eq_refl).
  - unfold apply_update, add_messages. cbn [messages agent_decision error upd_messages
      upd_agent_decision upd_error u]. by rewrite Hnil.
Qed.

(** ** The text of a turn *)

Lemma append_empty_r (s : string) : s +:+ "" = s.
Proof.
  induction s as [|c s IH]; [done|].
  change (String c s +:+ "") with (String c (s +:+ "")). by rewrite IH.
Qed.

Lemma get_text_loop_first (parts : list Part) :
  default "" (get_text_loop parts) =
    match text_parts_of parts with
    | [] => ""
    | part :: _ => part_get_text part
    end.
Proof.
  unfold text_parts_of. induction parts as [|part rest IH]; [done|].
  cbn [get_text_loop List.filter]. by destruct (dict_type_is "text" part).
Qed.

Lemma spec_text_concat_no_text (parts : list Part) :
  text_parts_of parts = [] -> spec_text_concat parts = "".
Proof.
  unfold text_parts_of. induction parts as [|part rest IH]; [done|].
  cbn [spec_text_concat List.filter].
  destruct (dict_type_is "text" part); [discriminate | exact IH].
Qed.

(** C8, as the code has it: for a turn whose content is a list of parts,
    the text the router uses, and the text of the turn's transcript line,
    is the text of the FIRST text part (the empty string if there is none);
    it is the concatenation of the text parts when the turn has at most
    one of them. *)
Theorem C8_text_is_first_text_part cls parts :
  let m := mkMessage cls (ContentList parts) in
  get_text_from_message m =
    match text_parts_of parts with
    | [] => ""
    | part :: _ => part_get_text part
    end
  /\ history_line m =
       (if isinstance m HumanMessageC then "User" else "Assistant")
         +:+ ": " +:+ match text_parts_of parts with
                      | [] => ""
                      | part :: _ => part_get_text part
                      end
  /\ (List.length (text_parts_of parts) <= 1 ->
      get_text_from_message m = spec_text_concat parts).
Proof.
  intros m.
  assert (Hfirst : get_text_from_message m =
                   match text_parts_of parts with
                   | [] => ""
                   | part :: _ => part_get_text part
                   end) by apply get_text_loop_first.
  split; [exact Hfirst|]. split.
  - unfold history_line. by rewrite Hfirst.
  - rewrite Hfirst. clear Hfirst m. unfold text_parts_of.
    induction parts as [|part rest IH]; [done|].
    cbn [spec_text_concat List.filter].
    destruct (dict_type_is "text" part) eqn:Hp.
    + cbn [List.length]. intros Hlen.
      assert (Hrest : text_parts_of rest = []).
      { unfold text_parts_of. destruct (List.filter _ rest); [done | simpl in Hlen; lia]. }
      by rewrite (spec_text_concat_no_text _ Hrest), append_empty_r.
    + exact IH.
Qed.

(** C8 as stated fails: on a turn with two text parts the router's text is
    the first part only, not the concatenation. *)
Lemma C8_counterexample :
  content two_text_turn
    = ContentList [text_part "is this covered by "; text_part "my lease"] /\
  spec_text_concat [text_part "is this covered by "; text_part "my lease"]
    = "is this covered by my lease" /\
  get_text_from_message two_text_turn = "is this covered by " /\
  get_text_from_message two_text_turn
    <> spec_text_concat [text_part "is this covered by "; text_part "my lease"].
Proof. repeat split; [reflexivity..|discriminate]. Qed.


(** ** Requests that contradict C7 and C9 as stated *)

(** C7 as stated fails: when the classifier call times out, the response
    text is the error field behind a fixed prefix, exception text included,
    and not the apology turn the router stored. *)
Lemma C7_counterexample :
  let res := chat_endpoint llm_times_out (agent_replies "ok") (agent_replies "ok")
               (fun b => b) true ∅ "s1" "hello" [] in
  snd res = HTTP200 (mkChatResponse
                       "An error occurred: Routing failed: Request timed out." "s1") /\
  exc_str timeout_error = "Request timed out." /\
  PyStr.contains (exc_str timeout_error)
    "An error occurred: Routing failed: Request timed out." = true /\
  error (default empty_state (fst res !! "s1"))
    = Some "Routing failed: Request timed out." /\
  last (conversation (fst res) "s1") = Some (AIMessage (ContentStr ROUTING_APOLOGY_TEXT)).
Proof. repeat split; vm_compute; reflexivity. Qed.

(** C9 as stated fails: a request that ends in clarify in the router, with
    no handler run, takes the conversation from 0 turns to 2, not to 1. *)
Lemma C9_counterexample :
  let router_llm := llm_answers clarify (Some "Hello! How can I help you today?") in
  let res := chat_endpoint router_llm (agent_replies "ok") (agent_replies "ok")
               (fun b => b) true ∅ "s1" "hello" [] in
  let r := run_graph router_llm (agent_replies "ok") (agent_replies "ok")
             (request_state (fun b => b) ∅ "s1" "hello" []) in
  handlers_run r = [] /\
  List.length (conversation ∅ "s1") = 0 /\
  List.length (conversation (fst res) "s1") = 2 /\
  List.length (conversation (fst res) "s1") <> List.length (conversation ∅ "s1") + 1.
Proof. repeat split; vm_compute; (reflexivity || discriminate). Qed.

(** ** The theorems at concrete requests *)

Lemma C2_witness :
  route_request (llm_answers agent1 None) (mkState [crack_turn] None None)
    = Return (mkUpdate (Some "clarify")
                       (Some [AIMessage (ContentStr UPLOAD_IMAGE_TEXT)]) None).
Proof.
  exact (proj2 (C2_no_image_never_visual_issue
                  (llm_answers agent1 None) (mkState [crack_turn] None None)
                  crack_turn eq_refl eq_refl) None eq_refl).
Defined.

Lemma C4_witness :
  route_request llm_times_out (mkState [crack_turn] None None)
    = Return (mkUpdate (Some "clarify")
                       (Some [AIMessage (ContentStr ROUTING_APOLOGY_TEXT)])
                       (Some "Routing failed: Request timed out."))
  /\
  handlers_run (run_graph llm_times_out (agent_replies "ok") (agent_replies "ok")
                          (mkState [crack_turn] None None)) = [].
Proof.
  pose proof (C4_classifier_failure_recovered
                llm_times_out (agent_replies "ok") (agent_replies "ok")
                (mkState [crack_turn] None None) crack_turn timeout_error
                eq_refl eq_refl) as (Hr & _ & Hh & _).
  split; [exact Hr | exact Hh].
Defined.

Lemma C5_witness :
  route_request (llm_answers agent1 None) empty_state
    = Return (mkUpdate (Some "clarify")
                       (Some [AIMessage (ContentStr NO_MESSAGE_TEXT)])
                       (Some NO_MESSAGE_ERROR))
  /\
  executed (run_graph (llm_answers agent1 None) (agent_replies "ok") (agent_replies "ok")
                      empty_state) = [router].
Proof.
  pose proof (C5_no_messages_recovered (llm_answers agent1 None)
                (agent_replies "ok") (agent_replies "ok") empty_state eq_refl)
    as (Hr & Hrun & _).
  split; [exact Hr | by rewrite Hrun].
Defined.

(** * Further properties of the code *)

(** ** What the router sees of a request *)

Lemma image_part_valid b64encode image :
  is_Some (image_part b64encode image) <-> valid_upload image.
Proof.
  unfold image_part, valid_upload.
  destruct (content_type image) as [mime|]; [|split; [by intros [? ?] | by intros (? & ? & ? & _)]].
  destruct (PyStr.truthy mime) eqn:Hm, (PyStr.startswith mime "image/") eqn:Hp;
    cbn [negb orb].
  - destruct (read image) as [bytes|e].
    + destruct (PyStr.truthy bytes) eqn:Hb; cbn [negb].
      * split; [|eauto]. intros _. exists mime, bytes.
        repeat split; try done. by destruct bytes.
      * split; [by intros [? ?]|]. intros (? & b & _ & _ & [= <-] & Hne).
        by destruct bytes.
    + split; [by intros [? ?]|]. by intros (? & ? & _ & _ & ? & _).
  - split; [by intros [? ?]|]. intros (? & ? & [= <-] & ? & _). congruence.
  - destruct mime; discriminate.
  - split; [by intros [? ?]|]. intros (? & ? & [= <-] & ? & _). congruence.
Qed.

Lemma image_part_is_image_url b64encode image part :
  image_part b64encode image = Some part ->
  exists url, part = image_url_part url /\ PyStr.startswith url "data:image/" = true.
Proof.
  unfold image_part. destruct (content_type image) as [mime|]; [|discriminate].
  destruct (negb (PyStr.truthy mime) || negb (PyStr.startswith mime "image/")) eqn:Hc;
    [discriminate|].
  apply orb_false_elim in Hc as [_ Hp]. apply negb_false_iff in Hp.
  destruct (read image) as [bytes|e]; [|discriminate].
  destruct (negb (PyStr.truthy bytes)); [discriminate|].
  intros [= <-]. eexists. split; [reflexivity|].
  unfold PyStr.startswith in *. apply PyStrFacts.prefix_iff in Hp as [post ->].
  apply PyStrFacts.prefix_iff. eexists. reflexivity.
Qed.

Lemma request_has_images b64encode query images :
  has_images_in_message
    (HumanMessage (ContentList (input_message_content b64encode query images))) = true
  <-> Exists valid_upload images.
Proof.
  unfold has_images_in_message, input_message_content.
  cbn [content HumanMessage existsb].
  change (dict_type_is "image_url" (text_part query)) with false. cbn [orb].
  induction images as [|image rest IH].
  - cbn. split; [discriminate | by intros ?%Exists_nil].
  - cbn [omap list_omap]. rewrite Exists_cons, <- IH. clear IH.
    destruct (image_part b64encode image) as [part|] eqn:Hp.
    + destruct (image_part_is_image_url _ _ _ Hp) as (url & -> & _).
      cbn [existsb]. change (dict_type_is "image_url" (image_url_part url)) with true.
      cbn [orb]. split; [|done]. intros _. left.
      apply (image_part_valid b64encode). rewrite Hp. eauto.
    + split; [by right|]. intros [Hv | Hr]; [|done].
      apply (image_part_valid b64encode) in Hv. rewrite Hp in Hv. by destruct Hv.
Qed.

(** X1: the user turn [chat_endpoint] builds gives the router back the
    query as its text, and counts as having images exactly when at least
    one upload passed the checks. *)
Theorem X1_router_view_of_request b64encode query images :
  let m := HumanMessage (ContentList (input_message_content b64encode query images)) in
  get_text_from_message m = query /\
  (has_images_in_message m = true <-> Exists valid_upload images).
Proof. intros m. split; [reflexivity | apply request_has_images]. Qed.


(** ** The handlers *)

Lemma messages_to_llm_all (msgs : list BaseMessage) (m : BaseMessage) :
  last msgs = Some m -> messages_to_llm (py_init msgs) m = msgs.
Proof.
  intros [history ->]%last_Some. unfold py_init. rewrite removelast_last.
  unfold messages_to_llm. by destruct history.
Qed.

(** X3: on a state without messages both handlers raise [IndexError]:
    the last message is read before the [try], and the model is not
    consulted. *)
Theorem X3_handlers_raise_without_messages agent_llm state :
  messages state = [] ->
  execute_agent1 agent_llm state
    = Raise (mkException "IndexError" "list index out of range") /\
  execute_agent2 agent_llm state
    = Raise (mkException "IndexError" "list index out of range").
Proof. intros H. unfold execute_agent1, execute_agent2. by rewrite H. Qed.

Lemma execute_agent1_eq agent1_llm state last_message :
  last (messages state) = Some last_message ->
  execute_agent1 agent1_llm state =
    match agent1_llm (SystemMessage (ContentStr agent1_system_prompt) :: messages state) with
    | Return reply => Return (mkUpdate None (Some [AIMessage reply]) None)
    | Raise e =>
        Return (mkUpdate None (Some [AIMessage (ContentStr AGENT1_APOLOGY_TEXT)])
                         (Some ("Agent 1 failed: " +:+ exc_str e)))
    end.
Proof.
  intros Hlast. unfold execute_agent1, py_last. rewrite Hlast.
  cbn [mbind Result_bind]. rewrite (messages_to_llm_all _ _ Hlast).
  by destruct (agent1_llm _).
Qed.

Lemma execute_agent2_eq agent2_llm state last_message :
  last (messages state) = Some last_message ->
  execute_agent2 agent2_llm state =
    match agent2_llm
            (SystemMessage (ContentStr
               (agent2_system_prompt (get_text_from_message last_message)))
             :: messages state) with
    | Return reply => Return (mkUpdate None (Some [AIMessage reply]) None)
    | Raise e =>
        Return (mkUpdate None (Some [AIMessage (ContentStr AGENT2_APOLOGY_TEXT)])
                         (Some ("Agent 2 failed: " +:+ exc_str e)))
    end.
Proof.
  intros Hlast. unfold execute_agent2, py_last. rewrite Hlast.
  cbn [mbind Result_bind]. rewrite (messages_to_llm_all _ _ Hlast).
  by destruct (agent2_llm _).
Qed.

(** X4: on a conversation with at least one turn the issue detector never
    raises.  It sends the model its fixed system prompt followed by the
    whole conversation; if the model answers, that answer is the one turn
    it appends and the error field is left alone; if the call raises, it
    appends the fixed apology and records ["Agent 1 failed: "] and the
    exception text.  It never writes the decision. *)
Theorem X4_issue_detector agent1_llm state last_message :
  last (messages state) = Some last_message ->
  execute_agent1 agent1_llm state =
    match agent1_llm (SystemMessage (ContentStr agent1_system_prompt) :: messages state) with
    | Return reply => Return (mkUpdate None (Some [AIMessage reply]) None)
    | Raise e =>
        Return (mkUpdate None (Some [AIMessage (ContentStr AGENT1_APOLOGY_TEXT)])
                         (Some ("Agent 1 failed: " +:+ exc_str e)))
    end.
Proof.
  intros Hlast. unfold execute_agent1, py_last. rewrite Hlast.
  cbn [mbind Result_bind]. rewrite (messages_to_llm_all _ _ Hlast).
  by destruct (agent1_llm _).
Qed.

(** X5: the same for the FAQ agent, whose system prompt is built from the
    text of the last turn and whose error prefix is ["Agent 2 failed: "]. *)
Theorem X5_faq_agent agent2_llm state last_message :
  last (messages state) = Some last_message ->
  execute_agent2 agent2_llm state =
    match agent2_llm
            (SystemMessage (ContentStr
               (agent2_system_prompt (get_text_from_message last_message)))
             :: messages state) with
    | Return reply => Return (mkUpdate None (Some [AIMessage reply]) None)
    | Raise e =>
        Return (mkUpdate None (Some [AIMessage (ContentStr AGENT2_APOLOGY_TEXT)])
                         (Some ("Agent 2 failed: " +:+ exc_str e)))
    end.
Proof.
  intros Hlast. unfold execute_agent2, py_last. rewrite Hlast.
  cbn [mbind Result_bind]. rewrite (messages_to_llm_all _ _ Hlast).
  by destruct (agent2_llm _).
Qed.

Lemma take_prefix (n : nat) (s : string) : String.prefix (PyStr.take n s) s = true.
Proof.
  unfold PyStr.take. revert s. induction n as [|n IH]; intros s.
  - by destruct s.
  - destruct s as [|c s]; [done|]. cbn [substring String.prefix].
    destruct (ascii_dec c c); [apply IH | done].
Qed.

Lemma take_length (n : nat) (s : string) :
  String.length (PyStr.take n s) = Nat.min n (String.length s).
Proof.
  unfold PyStr.take. revert s. induction n as [|n IH]; intros s.
  - by destruct s.
  - destruct s as [|c s]; [done|]. cbn [substring String.length Nat.min].
    by rewrite IH.
Qed.

Lemma take_all (n : nat) (s : string) :
  String.length s <= n -> PyStr.take n s = s.
Proof.
  unfold PyStr.take. revert s. induction n as [|n IH]; intros s Hlen.
  - destruct s; [done | simpl in Hlen; lia].
  - destruct s as [|c s]; [done|]. cbn [substring]. f_equal. apply IH.
    simpl in Hlen. lia.
Qed.

Lemma append_assoc' (a b c : string) : (a +:+ b) +:+ c = a +:+ (b +:+ c).
Proof.
  induction a as [|x a IH]; [done|].
  change (String x ((a +:+ b) +:+ c) = String x (a +:+ (b +:+ c))). by rewrite IH.
Qed.

Lemma contains_refl (s : string) : PyStr.contains s s = true.
Proof. apply PyStrFacts.contains_iff. exists "", "". by rewrite append_empty_r. Qed.

Lemma contains_app_r (x p s : string) :
  PyStr.contains x s = true -> PyStr.contains x (p +:+ s) = true.
Proof.
  intros (pre & post & ->)%PyStrFacts.contains_iff. apply PyStrFacts.contains_iff.
  exists (p +:+ pre), post. by rewrite append_assoc'.
Qed.

Lemma contains_app_l (x s q : string) :
  PyStr.contains x s = true -> PyStr.contains x (s +:+ q) = true.
Proof.
  intros (pre & post & ->)%PyStrFacts.contains_iff. apply PyStrFacts.contains_iff.
  exists pre, (post +:+ q). by rewrite !append_assoc'.
Qed.

Lemma contains_trans (x y z : string) :
  PyStr.contains x y = true -> PyStr.contains y z = true -> PyStr.contains x z = true.
Proof.
  intros Hxy (pre & post & ->)%PyStrFacts.contains_iff.
  by apply contains_app_r, contains_app_l.
Qed.

(** Every element of a joined list is a substring of the result. *)
Lemma contains_join (sep x : string) (l : list string) :
  x ∈ l -> PyStr.contains x (PyStr.join sep l) = true.
Proof.
  unfold PyStr.join. induction l as [|y l IH]; [by intros ?%elem_of_nil|].
  intros [-> | Hin]%elem_of_cons.
  - destruct l; [apply contains_refl|]. cbn [concat].
    apply contains_app_l, contains_refl.
  - destruct l as [|z l]; [by apply elem_of_nil in Hin|].
    change (concat sep (y :: z :: l)) with (y +:+ sep +:+ concat sep (z :: l)).
    by apply contains_app_r, contains_app_r, IH.
Qed.

(** X6: the FAQ agent's system prompt quotes the query cut to its first
    200 characters: the quoted text is a prefix of the query of length
    min(200, len(query)), so a query of at most 200 characters is quoted
    whole, and two queries with the same first 200 characters give the same
    prompt. *)
Theorem X6_faq_prompt_quotes_200_characters query :
  let quoted := PyStr.take 200 query in
  PyStr.contains ("Focus on the latest user query text: '" +:+ quoted +:+ "...'")
                 (agent2_system_prompt query) = true /\
  String.prefix quoted query = true /\
  String.length quoted = Nat.min 200 (String.length query) /\
  (String.length query <= 200 -> quoted = query) /\
  agent2_system_prompt quoted = agent2_system_prompt query.
Proof.
  intros quoted. split; [|split; [|split; [|split]]].
  - apply contains_join. do 5 apply list_elem_of_further. apply list_elem_of_here.
  - apply take_prefix.
  - apply take_length.
  - apply take_all.
  - unfold agent2_system_prompt. do 2 f_equal.
    rewrite (take_all 200 quoted); [done|].
    unfold quoted. rewrite take_length. lia.
Qed.

(** ** The conditional edge *)

(** X7: whatever the state's decision field holds, the key
    [decide_next_node] returns is one of the keys of the conditional-edge
    mapping, so following the edge never fails with a [KeyError]; and the
    edge leads to a handler node only for the decisions agent1 and
    agent2. *)
Theorem X7_conditional_edge_never_fails state :
  (exists target, path_map (decide_next_node state) = Return target) /\
  (forall n, next_target router state = Return (ToNode n) ->
     (n = issue_detector /\ agent_decision state = Some "agent1") \/
     (n = faq_agent /\ agent_decision state = Some "agent2")).
Proof.
  unfold next_target, decide_next_node.
  destruct (bool_decide (agent_decision state = Some "agent1")) eqn:H1;
    [|destruct (bool_decide (agent_decision state = Some "agent2")) eqn:H2;
      [|destruct (bool_decide (agent_decision state = Some "clarify")) eqn:H3]].
  - apply bool_decide_eq_true in H1. split; [by eexists|].
    intros n [= <-]. by left.
  - apply bool_decide_eq_true in H2. split; [by eexists|].
    intros n [= <-]. by right.
  - split; [by eexists | discriminate].
  - split; [by eexists | discriminate].
Qed.

(** ** The chat endpoint and the session store *)

Section Endpoint.

Variable router_llm : string -> Result RouterOutput.
Variable agent1_llm agent2_llm : list BaseMessage -> Result Content.
Variable b64encode : string -> string.

Local Abbreviation endpoint :=
  (chat_endpoint router_llm agent1_llm agent2_llm b64encode).

(** The store after a request differs from the store before at most at
    the request's session. *)
Lemma chat_endpoint_store loaded memory session_id query images :
  fst (endpoint loaded memory session_id query images) = memory \/
  exists state, fst (endpoint loaded memory session_id query images)
                = <[session_id := state]> memory.
Proof.
  unfold chat_endpoint. destruct loaded; [|by left]. cbn [negb].
  destruct (PyStr.truthy session_id); [|by left]. cbn [negb].
  unfold ainvoke. right. eexists.
  by destruct (_ ← outcome _; response_text_of _).
Qed.

End Endpoint.


(** ** The response text *)

Lemma text_parts_eq (parts : list Part) :
  text_parts parts =
    if forallb has_text_key (text_parts_of parts)
    then Return (map part_get_text (text_parts_of parts))
    else Raise (mkException "KeyError" "'text'").
Proof.
  unfold text_parts_of. induction parts as [|part rest IH]; [done|].
  cbn [text_parts List.filter]. destruct (dict_type_is "text" part) eqn:Ht; [|exact IH].
  cbn [forallb map]. destruct part as [s|[ty [t|] url]]; [discriminate|..].
  - cbn [part_text_item d_text mbind Result_bind has_text_key].
    rewrite bool_decide_eq_true_2 by eauto. cbn [andb]. rewrite IH.
    by destruct (forallb _ _).
  - cbn [part_text_item d_text mbind Result_bind has_text_key].
    rewrite bool_decide_eq_false_2 by (by intros [? ?]). done.
Qed.

(** X9: when the final state carries no error and its last message is an
    assistant turn with list content, the response is the texts of ALL its
    text parts joined by newlines, or a fixed notice when it has no text
    part; if one of its text parts lacks the key ["text"], computing the
    response raises [KeyError]. *)
Theorem X9_response_of_list_content final parts :
  truthy_opt (error final) = false ->
  last (messages final) = Some (AIMessage (ContentList parts)) ->
  response_text_of final =
    if forallb has_text_key (text_parts_of parts) then
      Return (match text_parts_of parts with
              | [] => "Received a non-standard response."
              | tp => PyStr.join PyStr.nl (map part_get_text tp)
              end)
    else Raise (mkException "KeyError" "'text'").
Proof.
  intros Herr Hlast. unfold response_text_of. rewrite Herr, Hlast.
  cbn [PyStr.truthy negb andb isinstance AIMessage msg_class content].
  change (bool_decide (AIMessageC = AIMessageC)) with true.
  cbv iota. rewrite text_parts_eq.
  destruct (forallb _ _); [|done]. cbn [mbind Result_bind].
  by destruct (text_parts_of parts).
Qed.

Lemma X9_witness :
  response_text_of
    (mkState [crack_turn;
              AIMessage (ContentList [text_part "It looks like a settlement crack.";
                                      image_url_part sample_image_url;
                                      text_part "Is it getting wider?"])]
             (Some "agent1") None)
  = Return ("It looks like a settlement crack." +:+ PyStr.nl +:+ "Is it getting wider?").
Proof.
  exact (X9_response_of_list_content
           (mkState [crack_turn;
                     AIMessage (ContentList [text_part "It looks like a settlement crack.";
                                             image_url_part sample_image_url;
                                             text_part "Is it getting wider?"])]
                    (Some "agent1") None)
           _ eq_refl eq_refl).
Defined.

Lemma response_text_of_str final t :
  truthy_opt (error final) = false ->
  last (messages final) = Some (AIMessage (ContentStr t)) ->
  response_text_of final = Return t.
Proof.
  intros Herr Hlast. unfold response_text_of. by rewrite Herr, Hlast.
Qed.

Lemma last_snoc2 {A} (l : list A) (a b : A) : last (l ++ [a; b]) = Some b.
Proof.
  replace (l ++ [a; b]) with ((l ++ [a]) ++ [b]) by (by rewrite <- app_assoc).
  apply last_snoc.
Qed.

(** ** Whole requests *)

Section EndToEnd.

Variable router_llm : string -> Result RouterOutput.
Variable agent1_llm agent2_llm : list BaseMessage -> Result Content.
Variable b64encode : string -> string.

Local Abbreviation run := (run_graph router_llm agent1_llm agent2_llm).
Local Abbreviation endpoint :=
  (chat_endpoint router_llm agent1_llm agent2_llm b64encode true).
Local Abbreviation user_turn query images :=
  (HumanMessage (ContentList (input_message_content b64encode query images))).

Lemma chat_endpoint_final memory session_id query images ex final :
  PyStr.truthy session_id = true ->
  run (request_state b64encode memory session_id query images)
    = mkRun ex final (Return final) ->
  endpoint memory session_id query images =
    (<[session_id := final]> memory,
     match response_text_of final with
     | Return response_text => HTTP200 (mkChatResponse response_text session_id)
     | Raise _ => HTTPException 500 "An unexpected server error occurred."
     end).
Proof.
  intros Hsid Hrun. rewrite chat_endpoint_run by done. cbv zeta. rewrite Hrun.
  cbn [checkpoint outcome]. by rewrite bind_Return.
Qed.

Lemma request_state_last memory session_id query images :
  last (messages (request_state b64encode memory session_id query images))
    = Some (user_turn query images).
Proof. rewrite request_state_messages. apply last_snoc. Qed.

(** The run of a request the router answers itself. *)
Lemma run_router_only state u :
  route_request router_llm state = Return u ->
  upd_agent_decision u = Some "clarify" ->
  run state = mkRun [router] (apply_update state u) (Return (apply_update state u)).
Proof.
  intros Hr Hd. unfold run_graph, recursion_limit.
  apply (run_from_to_end router_llm agent1_llm agent2_llm _ router _ u Hr).
  apply (next_target_router _ clarify). unfold apply_update. cbn [agent_decision].
  by rewrite Hd.
Qed.

(** The run of a request handed to a handler. *)
Lemma run_with_handler state d n u2 :
  route_request router_llm state = Return (mkUpdate (Some (decision_value d)) None None) ->
  next_target router (apply_update state (mkUpdate (Some (decision_value d)) None None))
    = Return (ToNode n) ->
  node_action router_llm agent1_llm agent2_llm n
    (apply_update state (mkUpdate (Some (decision_value d)) None None)) = Return u2 ->
  n <> router ->
  let final := apply_update
                 (apply_update state (mkUpdate (Some (decision_value d)) None None)) u2 in
  run state = mkRun [router; n] final (Return final).
Proof.
  intros Hr Hnext Hact Hn final. unfold run_graph, recursion_limit.
  rewrite (run_from_to_node _ _ _ _ router n _ _ Hr Hnext).
  rewrite (run_from_to_end _ _ _ _ n _ _ Hact); [done|]. by destruct n.
Qed.

(** A request the classifier routes to the FAQ agent, no upload being
    valid, the agent's model answering [reply]. *)
Lemma faq_request memory session_id query images c reply :
  ~ Exists valid_upload images ->
  router_llm (prompt_for
                (messages (request_state b64encode memory session_id query images))
                (user_turn query images))
    = Return (mkRouterOutput agent2 c) ->
  agent2_llm (SystemMessage (ContentStr (agent2_system_prompt query))
                :: conversation memory session_id ++ [user_turn query images])
    = Return reply ->
  let final := mkState (conversation memory session_id
                          ++ [user_turn query images; AIMessage reply])
                       (Some "agent2") None in
  run (request_state b64encode memory session_id query images)
    = mkRun [router; faq_agent] final (Return final).
Proof.
  intros Himg Hllm Hagent final.
  set (st := request_state b64encode memory session_id query images) in *.
  assert (Hlast := request_state_last memory session_id query images). fold st in Hlast.
  assert (Hno : has_images_in_message (user_turn query images) = false).
  { destruct (has_images_in_message _) eqn:E; [|done].
    by apply request_has_images in E. }
  assert (Hr : route_request router_llm st
               = Return (mkUpdate (Some (decision_value agent2)) None None)).
  { rewrite (route_request_ok _ _ _ _ _ Hlast Hllm), Hno, override_logic_cases.
    by rewrite router_update_not_clarify. }
  set (st1 := apply_update st (mkUpdate (Some (decision_value agent2)) None None)).
  assert (Hex : execute_agent2 agent2_llm st1
                = Return (mkUpdate None (Some [AIMessage reply]) None)).
  { rewrite (execute_agent2_eq agent2_llm st1 (user_turn query images) Hlast).
    change (get_text_from_message (user_turn query images)) with query.
    change (messages st1)
      with (conversation memory session_id ++ [user_turn query images]).
    by rewrite Hagent. }
  rewrite (run_with_handler st agent2 faq_agent _ Hr eq_refl Hex); [|done].
  unfold final, apply_update, add_messages.
  cbn [upd_messages upd_agent_decision upd_error messages agent_decision error].
  change (messages st) with (conversation memory session_id ++ [user_turn query images]).
  by rewrite <- app_assoc.
Qed.

End EndToEnd.

(** A request with a valid upload that the classifier routes to the issue
    detector, the detector's model answering [reply]. *)
Lemma visual_request router_llm agent1_llm agent2_llm b64encode
    memory session_id query images c reply :
  let user := HumanMessage (ContentList (input_message_content b64encode query images)) in
  Exists valid_upload images ->
  router_llm (prompt_for
                (messages (request_state b64encode memory session_id query images)) user)
    = Return (mkRouterOutput agent1 c) ->
  agent1_llm (SystemMessage (ContentStr agent1_system_prompt)
                :: conversation memory session_id ++ [user])
    = Return reply ->
  let final := mkState (conversation memory session_id ++ [user; AIMessage reply])
                       (Some "agent1") None in
  run_graph router_llm agent1_llm agent2_llm
    (request_state b64encode memory session_id query images)
    = mkRun [router; issue_detector] final (Return final).
Proof.
  intros user Himg Hllm Hagent final.
  set (st := request_state b64encode memory session_id query images) in *.
  assert (Hlast := request_state_last b64encode memory session_id query images).
  fold st user in Hlast.
  assert (Hyes : has_images_in_message user = true) by by apply request_has_images.
  assert (Hr : route_request router_llm st
               = Return (mkUpdate (Some (decision_value agent1)) None None)).
  { rewrite (route_request_ok _ _ _ _ _ Hlast Hllm), Hyes, override_logic_cases.
    by rewrite router_update_not_clarify. }
  set (st1 := apply_update st (mkUpdate (Some (decision_value agent1)) None None)).
  assert (Hex : execute_agent1 agent1_llm st1
                = Return (mkUpdate None (Some [AIMessage reply]) None)).
  { rewrite (execute_agent1_eq agent1_llm st1 user Hlast).
    change (messages st1) with (conversation memory session_id ++ [user]).
    by rewrite Hagent. }
  rewrite (run_with_handler router_llm agent1_llm agent2_llm
             st agent1 issue_detector _ Hr eq_refl Hex); [|done].
  unfold final, apply_update, add_messages.
  cbn [upd_messages upd_agent_decision upd_error messages agent_decision error].
  change (messages st) with (conversation memory session_id ++ [user]).
  by rewrite <- app_assoc.
Qed.

(** X10: when the classifier itself chooses clarify, with or without
    images, the user gets the classifier's clarification text, or the
    generic message if that text is empty or absent; the session then
    holds the old conversation, the user turn and that one assistant turn,
    with decision clarify and no error. *)
Theorem X10_clarify_request router_llm agent1_llm agent2_llm b64encode
    memory session_id query images c :
  let user := HumanMessage (ContentList (input_message_content b64encode query images)) in
  let text := or_default c HOW_CAN_I_HELP_TEXT in
  PyStr.truthy session_id = true ->
  router_llm (prompt_for
                (messages (request_state b64encode memory session_id query images)) user)
    = Return (mkRouterOutput clarify c) ->
  chat_endpoint router_llm agent1_llm agent2_llm b64encode true
                memory session_id query images
    = (<[session_id := mkState (conversation memory session_id
                                  ++ [user; AIMessage (ContentStr text)])
                               (Some "clarify") None]> memory,
       HTTP200 (mkChatResponse text session_id)).
Proof.
  intros user text Hsid Hllm.
  set (st := request_state b64encode memory session_id query images) in *.
  assert (Hlast := request_state_last b64encode memory session_id query images).
  fold st user in Hlast.
  assert (Hr : route_request router_llm st
               = Return (mkUpdate (Some "clarify")
                                  (Some [AIMessage (ContentStr text)]) None)).
  { rewrite (route_request_ok _ _ _ _ _ Hlast Hllm), override_logic_cases.
    unfold text. rewrite or_default_eq.
    destruct (has_images_in_message user), (truthy_opt c) eqn:Hc;
      by rewrite router_update_clarify. }
  pose proof (run_router_only router_llm agent1_llm agent2_llm st _ Hr eq_refl) as Hrun.
  rewrite (chat_endpoint_final _ _ _ _ _ _ _ _ _ _ Hsid Hrun).
  assert (Hfinal : apply_update st (mkUpdate (Some "clarify")
                                      (Some [AIMessage (ContentStr text)]) None)
                   = mkState (conversation memory session_id
                                ++ [user; AIMessage (ContentStr text)])
                             (Some "clarify") None).
  { unfold apply_update, add_messages.
    cbn [upd_messages upd_agent_decision upd_error].
    change (messages st) with (conversation memory session_id ++ [user]).
    by rewrite <- app_assoc. }
  rewrite Hfinal. rewrite (response_text_of_str _ text); [done | done |].
  apply last_snoc2.
Qed.

(** X11: a request without a valid upload that the classifier routes to
    the FAQ agent, whose model answers with a string: the user gets exactly
    that string, and the session holds the old conversation, the user turn
    and the answer, with decision agent2 and no error.  The classifier's
    clarification text, if any, is dropped. *)
Theorem X11_faq_request router_llm agent1_llm agent2_llm b64encode
    memory session_id query images c answer :
  let user := HumanMessage (ContentList (input_message_content b64encode query images)) in
  PyStr.truthy session_id = true ->
  ~ Exists valid_upload images ->
  router_llm (prompt_for
                (messages (request_state b64encode memory session_id query images)) user)
    = Return (mkRouterOutput agent2 c) ->
  agent2_llm (SystemMessage (ContentStr (agent2_system_prompt query))
                :: conversation memory session_id ++ [user])
    = Return (ContentStr answer) ->
  chat_endpoint router_llm agent1_llm agent2_llm b64encode true
                memory session_id query images
    = (<[session_id := mkState (conversation memory session_id
                                  ++ [user; AIMessage (ContentStr answer)])
                               (Some "agent2") None]> memory,
       HTTP200 (mkChatResponse answer session_id)).
Proof.
  intros user Hsid Himg Hllm Hagent.
  pose proof (faq_request router_llm agent1_llm agent2_llm b64encode
                memory session_id query images c _ Himg Hllm Hagent) as Hrun.
  rewrite (chat_endpoint_final _ _ _ _ _ _ _ _ _ _ Hsid Hrun).
  rewrite (response_text_of_str _ answer); [done | done |].
  apply last_snoc2.
Qed.

(** X12: a request with at least one valid upload that the classifier
    routes to the issue detector, whose model answers with a string: the
    user gets exactly that string, and the session holds the old
    conversation, the user turn (images included) and the answer, with
    decision agent1 and no error. *)
Theorem X12_visual_request router_llm agent1_llm agent2_llm b64encode
    memory session_id query images c answer :
  let user := HumanMessage (ContentList (input_message_content b64encode query images)) in
  PyStr.truthy session_id = true ->
  Exists valid_upload images ->
  router_llm (prompt_for
                (messages (request_state b64encode memory session_id query images)) user)
    = Return (mkRouterOutput agent1 c) ->
  agent1_llm (SystemMessage (ContentStr agent1_system_prompt)
                :: conversation memory session_id ++ [user])
    = Return (ContentStr answer) ->
  chat_endpoint router_llm agent1_llm agent2_llm b64encode true
                memory session_id query images
    = (<[session_id := mkState (conversation memory session_id
                                  ++ [user; AIMessage (ContentStr answer)])
                               (Some "agent1") None]> memory,
       HTTP200 (mkChatResponse answer session_id)).
Proof.
  intros user Hsid Himg Hllm Hagent.
  pose proof (visual_request router_llm agent1_llm agent2_llm b64encode
                memory session_id query images c _ Himg Hllm Hagent) as Hrun.
  rewrite (chat_endpoint_final _ _ _ _ _ _ _ _ _ _ Hsid Hrun).
  rewrite (response_text_of_str _ answer); [done | done |].
  apply last_snoc2.
Qed.

(** X13: if the FAQ agent's model answers with list content in which a
    text part lacks the key ["text"], the caller gets HTTP 500 with the
    generic detail, although no component recorded an error; the agent's
    turn is nevertheless stored in the session. *)
Theorem X13_malformed_answer_is_500 router_llm agent1_llm agent2_llm b64encode
    memory session_id query images c parts :
  let user := HumanMessage (ContentList (input_message_content b64encode query images)) in
  PyStr.truthy session_id = true ->
  ~ Exists valid_upload images ->
  router_llm (prompt_for
                (messages (request_state b64encode memory session_id query images)) user)
    = Return (mkRouterOutput agent2 c) ->
  agent2_llm (SystemMessage (ContentStr (agent2_system_prompt query))
                :: conversation memory session_id ++ [user])
    = Return (ContentList parts) ->
  forallb has_text_key (text_parts_of parts) = false ->
  chat_endpoint router_llm agent1_llm agent2_llm b64encode true
                memory session_id query images
    = (<[session_id := mkState (conversation memory session_id
                                  ++ [user; AIMessage (ContentList parts)])
                               (Some "agent2") None]> memory,
       HTTPException 500 "An unexpected server error occurred.").
Proof.
  intros user Hsid Himg Hllm Hagent Hkey.
  pose proof (faq_request router_llm agent1_llm agent2_llm b64encode
                memory session_id query images c _ Himg Hllm Hagent) as Hrun.
  rewrite (chat_endpoint_final _ _ _ _ _ _ _ _ _ _ Hsid Hrun).
  assert (Hresp : response_text_of
                    (mkState (conversation memory session_id
                                ++ [user; AIMessage (ContentList parts)])
                             (Some "agent2") None)
                  = Raise (mkException "KeyError" "'text'")).
  { unfold response_text_of. cbn [error messages truthy_opt].
    rewrite last_snoc2.
    cbn [PyStr.truthy negb andb isinstance AIMessage msg_class content].
    change (bool_decide (AIMessageC = AIMessageC)) with true. cbv iota.
    by rewrite text_parts_eq, Hkey. }
  unfold user in Hresp |- *. by rewrite Hresp.
Qed.

(** ** The classifier's prompt *)

Lemma history_line_contains_text (m : BaseMessage) :
  PyStr.contains (get_text_from_message m) (history_line m) = true.
Proof. unfold history_line. apply contains_app_r, contains_app_r, contains_refl. Qed.

(** X14: the prompt sent to the classifier embeds the whole transcript:
    for every message of the conversation its role-prefixed line, and so
    its text, occurs in the prompt, and so does the line that tells
    whether the last message has images. *)
Theorem X14_prompt_embeds_conversation msgs has_images m :
  m ∈ msgs ->
  let prompt := router_prompt (conversation_history_text msgs) has_images in
  PyStr.contains (history_line m) prompt = true /\
  PyStr.contains (get_text_from_message m) prompt = true /\
  PyStr.contains ("Images provided in the *latest* user message: "
                    +:+ (if has_images then "Yes" else "No")) prompt = true.
Proof.
  intros Hin prompt.
  assert (Hline : PyStr.contains (history_line m) prompt = true).
  { apply (contains_trans _ (conversation_history_text msgs)).
    - apply contains_join. by apply list_elem_of_fmap_2.
    - apply contains_join. do 9 apply list_elem_of_further. apply list_elem_of_here. }
  split; [exact Hline|]. split.
  - exact (contains_trans _ _ _ (history_line_contains_text m) Hline).
  - apply contains_join. do 12 apply list_elem_of_further. apply list_elem_of_here.
Qed.

Lemma join_snoc (sep : string) (l : list string) (x : string) :
  PyStr.join sep (l ++ [x]) =
    match l with
    | [] => x
    | _ => PyStr.join sep l +:+ sep +:+ x
    end.
Proof.
  unfold PyStr.join. induction l as [|y l IH]; [done|].
  destruct l as [|z l]; [done|].
  change (concat sep ((y :: z :: l) ++ [x]))
    with (y +:+ sep +:+ concat sep ((z :: l) ++ [x])).
  rewrite IH.
  change (concat sep (y :: z :: l)) with (y +:+ sep +:+ concat sep (z :: l)).
  by rewrite !append_assoc'.
Qed.

(** X15: the transcript grows by appending: the transcript of a
    conversation extended by one message is the old transcript, a newline
    and the new message's line (just that line for an empty conversation);
    a human message is labelled User and every other message Assistant. *)
Theorem X15_transcript_grows_by_lines msgs m :
  conversation_history_text (msgs ++ [m]) =
    match msgs with
    | [] => history_line m
    | _ => conversation_history_text msgs +:+ PyStr.nl +:+ history_line m
    end
  /\ history_line m =
       (match msg_class m with HumanMessageC => "User" | _ => "Assistant" end)
         +:+ ": " +:+ get_text_from_message m.
Proof.
  split.
  - unfold conversation_history_text. rewrite map_app. cbn [map].
    rewrite join_snoc. by destruct msgs.
  - unfold history_line, isinstance. by destruct (msg_class m).
Qed.

(** ** The override chain *)

(** X16: what the override chain can and cannot do to the classifier's
    decision: a raw clarify is never changed; tenancy_faq is never produced
    from another decision; visual_issue is only returned for a last turn
    with images; with images a raw visual_issue is kept, and without
    images a raw tenancy_faq is kept whatever the text says. *)
Theorem X16_override_table has_images text d c :
  let final := fst (override_logic has_images text d c) in
  (d = clarify -> final = clarify) /\
  (final = agent2 -> d = agent2) /\
  (final = agent1 -> has_images = true) /\
  (has_images = true -> d = agent1 -> final = agent1) /\
  (has_images = false -> d = agent2 ->
   override_logic has_images text d c = (agent2, c)).
Proof.
  intros final. unfold final. rewrite override_logic_cases.
  destruct d, has_images; try destruct (existsb _ faq_keywords);
    try destruct (truthy_opt c); cbn [fst]; repeat split; congruence.
Qed.

(** X17: the classifier's clarification text matters only for a clarify
    outcome, and an empty text counts as none: two classifier answers with
    the same decision always lead to the same final decision; the router's
    results are equal when that decision is not clarify, and also when
    both texts are empty or absent. *)
Theorem X17_clarification_text_use router_llm1 router_llm2 state last_message d c1 c2 :
  last (messages state) = Some last_message ->
  router_llm1 (prompt_for (messages state) last_message) = Return (mkRouterOutput d c1) ->
  router_llm2 (prompt_for (messages state) last_message) = Return (mkRouterOutput d c2) ->
  exists u1 u2,
    route_request router_llm1 state = Return u1 /\
    route_request router_llm2 state = Return u2 /\
    upd_agent_decision u1 = upd_agent_decision u2 /\
    (upd_agent_decision u1 <> Some "clarify" -> u1 = u2) /\
    (truthy_opt c1 = false -> truthy_opt c2 = false -> u1 = u2).
Proof.
  intros Hlast H1 H2.
  rewrite (route_request_ok _ _ _ _ _ Hlast H1), (route_request_ok _ _ _ _ _ Hlast H2).
  eexists _, _. split; [reflexivity|]. split; [reflexivity|].
  rewrite !override_logic_cases.
  destruct d, (has_images_in_message last_message);
    try destruct (existsb _ faq_keywords).
  all: try (rewrite !router_update_not_clarify by done; by repeat split).
  all: try destruct (truthy_opt c1) eqn:Hc1; try destruct (truthy_opt c2) eqn:Hc2.
  all: rewrite ?router_update_clarify
         by (done || (rewrite or_default_eq; by destruct c1 as [[|]|])
                  || (rewrite or_default_eq; by destruct c2 as [[|]|])).
  all: repeat split; try done.
  all: intros _ _; by rewrite !or_default_eq, Hc1, Hc2.
Qed.

(** ** Sessions *)

(** A request depends on the store only through its own session's entry. *)
Lemma chat_endpoint_local router_llm agent1_llm agent2_llm b64encode
    loaded (memory1 memory2 : gmap string GraphState) session_id query images :
  memory1 !! session_id = memory2 !! session_id ->
  snd (chat_endpoint router_llm agent1_llm agent2_llm b64encode
         loaded memory1 session_id query images)
    = snd (chat_endpoint router_llm agent1_llm agent2_llm b64encode
             loaded memory2 session_id query images) /\
  fst (chat_endpoint router_llm agent1_llm agent2_llm b64encode
         loaded memory1 session_id query images) !! session_id
    = fst (chat_endpoint router_llm agent1_llm agent2_llm b64encode
             loaded memory2 session_id query images) !! session_id.
Proof.
  intros Heq. unfold chat_endpoint. destruct loaded; [|done]. cbn [negb].
  destruct (PyStr.truthy session_id); [|done]. cbn [negb].
  unfold ainvoke. rewrite Heq.
  destruct (_ ← outcome _; response_text_of _); cbn [fst snd];
    by rewrite !lookup_insert_eq.
Qed.

(** X18: sessions do not interfere: a request of one session gets the same
    response, and leaves the same stored state for its session, whether or
    not a request of another session was served just before it. *)
Theorem X18_sessions_do_not_interfere router_llm agent1_llm agent2_llm b64encode
    memory session_id query images loaded' other query' images' :
  other <> session_id ->
  let memory' := fst (chat_endpoint router_llm agent1_llm agent2_llm b64encode
                        loaded' memory other query' images') in
  snd (chat_endpoint router_llm agent1_llm agent2_llm b64encode true
         memory' session_id query images)
    = snd (chat_endpoint router_llm agent1_llm agent2_llm b64encode true
             memory session_id query images) /\
  fst (chat_endpoint router_llm agent1_llm agent2_llm b64encode true
         memory' session_id query images) !! session_id
    = fst (chat_endpoint router_llm agent1_llm agent2_llm b64encode true
             memory session_id query images) !! session_id.
Proof.
  intros Hne memory'. apply chat_endpoint_local. subst memory'.
  destruct (chat_endpoint_store router_llm agent1_llm agent2_llm b64encode
              loaded' memory other query' images') as [-> | [state ->]]; [done|].
  by rewrite lookup_insert_ne.
Qed.

(** ** The further properties at concrete requests *)

Lemma X3_witness :
  execute_agent1 (agent_replies "ok") empty_state
    = Raise (mkException "IndexError" "list index out of range") /\
  execute_agent2 (agent_replies "ok") empty_state
    = Raise (mkException "IndexError" "list index out of range").
Proof.
  exact (X3_handlers_raise_without_messages (agent_replies "ok") empty_state eq_refl).
Defined.

Lemma X4_witness :
  execute_agent1 (fun _ => Raise timeout_error) (mkState [mold_turn] (Some "agent1") None)
    = Return (mkUpdate None (Some [AIMessage (ContentStr AGENT1_APOLOGY_TEXT)])
                       (Some "Agent 1 failed: Request timed out.")).
Proof.
  exact (X4_issue_detector (fun _ => Raise timeout_error)
           (mkState [mold_turn] (Some "agent1") None) mold_turn eq_refl).
Defined.

Lemma X5_witness :
  execute_agent2 (agent_replies "A deposit is...") (mkState [crack_turn] (Some "agent2") None)
    = Return (mkUpdate None (Some [AIMessage (ContentStr "A deposit is...")]) None).
Proof.
  exact (X5_faq_agent (agent_replies "A deposit is...")
           (mkState [crack_turn] (Some "agent2") None) crack_turn eq_refl).
Defined.


Lemma X10_witness :
  chat_endpoint (llm_answers clarify (Some "Your name is Ada.")) (agent_replies "ok")
                (agent_replies "ok") (fun b => b) true ∅ "s1" "what is my name" []
    = (<["s1" := mkState [HumanMessage (ContentList [text_part "what is my name"]);
                          AIMessage (ContentStr "Your name is Ada.")]
                         (Some "clarify") None]> ∅,
       HTTP200 (mkChatResponse "Your name is Ada." "s1")).
Proof.
  exact (X10_clarify_request (llm_answers clarify (Some "Your name is Ada."))
           (agent_replies "ok") (agent_replies "ok") (fun b => b)
           ∅ "s1" "what is my name" [] (Some "Your name is Ada.") eq_refl eq_refl).
Defined.

Lemma X11_witness :
  chat_endpoint (llm_answers agent2 None) (agent_replies "ok")
                (agent_replies "A deposit is...") (fun b => b) true ∅ "s1"
                "what is a deposit" [pdf_upload]
    = (<["s1" := mkState [HumanMessage (ContentList [text_part "what is a deposit"]);
                          AIMessage (ContentStr "A deposit is...")]
                         (Some "agent2") None]> ∅,
       HTTP200 (mkChatResponse "A deposit is..." "s1")).
Proof.
  refine (X11_faq_request (llm_answers agent2 None) (agent_replies "ok")
            (agent_replies "A deposit is...") (fun b => b)
            ∅ "s1" "what is a deposit" [pdf_upload] None "A deposit is..."
            eq_refl _ eq_refl eq_refl).
  intros [H | H]%Exists_cons.
  - destruct H as (mime & bytes & [= <-] & Hp & _). discriminate Hp.
  - by apply Exists_nil in H.
Defined.

Lemma X12_witness :
  chat_endpoint (llm_answers agent1 None) (agent_replies "That is mold.")
                (agent_replies "ok") (fun b => b) true ∅ "s1"
                "what is on my ceiling" [pdf_upload; png_upload]
    = (<["s1" := mkState [HumanMessage (ContentList
                            [text_part "what is on my ceiling";
                             image_url_part "data:image/png;base64,PNGDATA"]);
                          AIMessage (ContentStr "That is mold.")]
                         (Some "agent1") None]> ∅,
       HTTP200 (mkChatResponse "That is mold." "s1")).
Proof.
  refine (X12_visual_request (llm_answers agent1 None) (agent_replies "That is mold.")
            (agent_replies "ok") (fun b => b)
            ∅ "s1" "what is on my ceiling" [pdf_upload; png_upload] None "That is mold."
            eq_refl _ eq_refl eq_refl).
  apply Exists_cons. right. apply Exists_cons. left.
  exists "image/png", "PNGDATA".
  split; [reflexivity|]. split; [reflexivity|]. split; [reflexivity | discriminate].
Defined.

Lemma X13_witness :
  snd (chat_endpoint (llm_answers agent2 None) (agent_replies "ok")
         (fun _ => Return (ContentList [PartDict_ (mkPartDict (Some "text") None None)]))
         (fun b => b) true ∅ "s1" "what is a deposit" [])
    = HTTPException 500 "An unexpected server error occurred.".
Proof.
  refine (f_equal snd
            (X13_malformed_answer_is_500 (llm_answers agent2 None) (agent_replies "ok")
               (fun _ => Return (ContentList [PartDict_ (mkPartDict (Some "text") None None)]))
               (fun b => b) ∅ "s1" "what is a deposit" [] None
               [PartDict_ (mkPartDict (Some "text") None None)]
               eq_refl _ eq_refl eq_refl eq_refl)).
  by intros ?%Exists_nil.
Defined.

Lemma X14_witness :
  let prompt := router_prompt (conversation_history_text [crack_turn; mold_turn]) true in
  PyStr.contains "User: what is this crack in my wall" prompt = true /\
  PyStr.contains "what is this crack in my wall" prompt = true /\
  PyStr.contains "Images provided in the *latest* user message: Yes" prompt = true.
Proof.
  refine (X14_prompt_embeds_conversation [crack_turn; mold_turn] true crack_turn _).
  apply list_elem_of_here.
Defined.

Lemma X17_witness :
  exists u1 u2,
    route_request (llm_answers clarify (Some "")) (mkState [crack_turn] None None)
      = Return u1 /\
    route_request (llm_answers clarify None) (mkState [crack_turn] None None)
      = Return u2 /\
    upd_agent_decision u1 = upd_agent_decision u2 /\
    (upd_agent_decision u1 <> Some "clarify" -> u1 = u2) /\
    (truthy_opt (Some "") = false -> truthy_opt None = false -> u1 = u2).
Proof.
  exact (X17_clarification_text_use (llm_answers clarify (Some ""))
           (llm_answers clarify None) (mkState [crack_turn] None None) crack_turn
           clarify (Some "") None eq_refl eq_refl eq_refl).
Defined.

Lemma X18_witness :
  let memory' := fst (chat_endpoint (llm_answers clarify None) (agent_replies "ok")
                        (agent_replies "ok") (fun b => b) true ∅ "s2" "hi" []) in
  snd (chat_endpoint (llm_answers clarify None) (agent_replies "ok")
         (agent_replies "ok") (fun b => b) true memory' "s1" "hello" [])
    = snd (chat_endpoint (llm_answers clarify None) (agent_replies "ok")
             (agent_replies "ok") (fun b => b) true ∅ "s1" "hello" []) /\
  fst (chat_endpoint (llm_answers clarify None) (agent_replies "ok")
         (agent_replies "ok") (fun b => b) true memory' "s1" "hello" []) !! "s1"
    = fst (chat_endpoint (llm_answers clarify None) (agent_replies "ok")
             (agent_replies "ok") (fun b => b) true ∅ "s1" "hello" []) !! "s1".
Proof.
  refine (X18_sessions_do_not_interfere (llm_answers clarify None) (agent_replies "ok")
            (agent_replies "ok") (fun b => b) ∅ "s1" "hello" [] true "s2" "hi" [] _).
  discriminate.
Defined.


(** ** The clear endpoint and the settings *)

(** X19: [clear_session] echoes a non-empty session id and names it in
    its message; an empty id is treated like a missing one: the generic
    message, and no id echoed. *)
Theorem X19_clear_session_echo (session_id : option string) :
  let r := clear_session session_id in
  (truthy_opt session_id = true ->
     clear_session_id r = session_id /\
     exists sid, session_id = Some sid /\
       String.prefix ("Session " +:+ sid +:+ " context clear signaled.")
                     (clear_message r) = true) /\
  (truthy_opt session_id = false ->
     r = clear_session None /\ clear_session_id r = None).
Proof.
  intros r. unfold r, clear_session. split; intros Ht; rewrite Ht.
  - split; [done|]. destruct session_id as [sid|]; [|discriminate].
    exists sid. split; [done|]. cbn [clear_message default].
    apply PyStrFacts.prefix_iff. eexists.
    rewrite !append_assoc'. reflexivity.
  - done.
Qed.

(** X20: the settings warn about the API key exactly when the variable is
    unset, empty, or contains the placeholder; the key is then still
    stored as read, and each model name falls back to ["gpt-4o"] when its
    variable is unset. *)
Theorem X20_settings_from_environment (env : gmap string string) :
  let '(settings, printed) := load_settings env in
  (printed = [API_KEY_WARNING] \/ printed = []) /\
  (printed = [API_KEY_WARNING] <->
     match env !! "OPENAI_API_KEY" with
     | None => True
     | Some key => key = "" \/ PyStr.contains "YOUR_DEFAULT_KEY_HERE" key = true
     end) /\
  (forall key, env !! "OPENAI_API_KEY" = Some key -> OPENAI_API_KEY settings = key) /\
  (env !! "VISION_MODEL_NAME" = None -> VISION_MODEL_NAME settings = "gpt-4o") /\
  (env !! "ROUTING_MODEL_NAME" = None -> ROUTING_MODEL_NAME settings = "gpt-4o") /\
  (env !! "FAQ_MODEL_NAME" = None -> FAQ_MODEL_NAME settings = "gpt-4o").
Proof.
  unfold load_settings, getenv.
  destruct (env !! "OPENAI_API_KEY") as [key|] eqn:Hkey; cbn [from_option id].
  - destruct (negb (PyStr.truthy key) || PyStr.contains "YOUR_DEFAULT_KEY_HERE" key)
      eqn:Hc; cbv iota beta.
    + split; [by left|]. split.
      * split; [|done]. intros _. apply orb_true_iff in Hc as [Hc | Hc]; [|by right].
        left. by destruct key.
      * repeat split; try (by intros ->). by intros ? [= ->].
    + split; [by right|]. split.
      * split; [discriminate|]. apply orb_false_elim in Hc as [Hc1 Hc2].
        intros [-> | Hc]; [discriminate | congruence].
      * repeat split; try (by intros ->). by intros ? [= ->].
  - change (negb (PyStr.truthy "YOUR_DEFAULT_KEY_HERE")
            || PyStr.contains "YOUR_DEFAULT_KEY_HERE" "YOUR_DEFAULT_KEY_HERE") with true.
    cbv iota. split; [by left|]. split; [done|].
    repeat split; try (by intros ->). discriminate.
Qed.

(** * The router's decision, the error response and the turns of a request *)

(** One run of the graph on a conversation with a last message: what the
    router returned, which branch ran, which component produced the one
    assistant turn that was appended, and where an error came from. *)
Lemma run_graph_provenance router_llm agent1_llm agent2_llm state m :
  last (messages state) = Some m ->
  exists u reply final,
    route_request router_llm state = Return u /\
    run_graph router_llm agent1_llm agent2_llm state
      = mkRun (executed (run_graph router_llm agent1_llm agent2_llm state))
              final (Return final) /\
    messages final = messages state ++ [AIMessage reply] /\
    ((agent_decision final = Some "clarify" /\
      executed (run_graph router_llm agent1_llm agent2_llm state) = [router] /\
      upd_messages u = Some [AIMessage reply] /\
      (error final = error state \/
       exists e, router_llm (prompt_for (messages state) m) = Raise e /\
         error final = Some ("Routing failed: " +:+ exc_str e) /\
         reply = ContentStr ROUTING_APOLOGY_TEXT)) \/
     (agent_decision final = Some "agent1" /\
      executed (run_graph router_llm agent1_llm agent2_llm state)
        = [router; issue_detector] /\
      upd_messages u = None /\
      (exists u2, execute_agent1 agent1_llm (apply_update state u) = Return u2 /\
         upd_messages u2 = Some [AIMessage reply]) /\
      (error final = error state \/
       exists e, agent1_llm (SystemMessage (ContentStr agent1_system_prompt)
                               :: messages state) = Raise e /\
         error final = Some ("Agent 1 failed: " +:+ exc_str e) /\
         reply = ContentStr AGENT1_APOLOGY_TEXT)) \/
     (agent_decision final = Some "agent2" /\
      executed (run_graph router_llm agent1_llm agent2_llm state)
        = [router; faq_agent] /\
      upd_messages u = None /\
      (exists u2, execute_agent2 agent2_llm (apply_update state u) = Return u2 /\
         upd_messages u2 = Some [AIMessage reply]) /\
      (error final = error state \/
       exists e, agent2_llm (SystemMessage (ContentStr
                               (agent2_system_prompt (get_text_from_message m)))
                               :: messages state) = Raise e /\
         error final = Some ("Agent 2 failed: " +:+ exc_str e) /\
         reply = ContentStr AGENT2_APOLOGY_TEXT))).
Proof.
  intros Hlast.
  destruct (route_request_total router_llm state) as (u & d & Hr & Hd & Hm & He).
  destruct u as [ud um ue]. cbn [upd_agent_decision upd_messages upd_error] in *.
  destruct d.
  - destruct Hm as (-> & -> & _). subst ud.
    set (st1 := apply_update state (mkUpdate (Some (decision_value agent1)) None None)).
    assert (Hlast1 : last (messages st1) = Some m) by exact Hlast.
    pose proof (execute_agent1_eq agent1_llm st1 m Hlast1) as Hex.
    change (messages st1) with (messages state) in Hex.
    destruct (agent1_llm _) as [r|e] eqn:Hllm.
    + pose proof (run_with_handler router_llm agent1_llm agent2_llm
                    state agent1 issue_detector _ Hr eq_refl Hex) as Hrun.
      cbv zeta in Hrun. rewrite Hrun by done.
      eexists _, r, _. split; [exact Hr|]. split; [reflexivity|].
      split; [reflexivity|]. right; left.
      repeat split; try reflexivity; [by eexists | by left].
    + pose proof (run_with_handler router_llm agent1_llm agent2_llm
                    state agent1 issue_detector _ Hr eq_refl Hex) as Hrun.
      cbv zeta in Hrun. rewrite Hrun by done.
      eexists _, (ContentStr AGENT1_APOLOGY_TEXT), _. split; [exact Hr|].
      split; [reflexivity|]. split; [reflexivity|]. right; left.
      repeat split; try reflexivity; [by eexists | right; by exists e].
  - destruct Hm as (-> & -> & _). subst ud.
    set (st1 := apply_update state (mkUpdate (Some (decision_value agent2)) None None)).
    assert (Hlast1 : last (messages st1) = Some m) by exact Hlast.
    pose proof (execute_agent2_eq agent2_llm st1 m Hlast1) as Hex.
    change (messages st1) with (messages state) in Hex.
    destruct (agent2_llm _) as [r|e] eqn:Hllm.
    + pose proof (run_with_handler router_llm agent1_llm agent2_llm
                    state agent2 faq_agent _ Hr eq_refl Hex) as Hrun.
      cbv zeta in Hrun. rewrite Hrun by done.
      eexists _, r, _. split; [exact Hr|]. split; [reflexivity|].
      split; [reflexivity|]. right; right.
      repeat split; try reflexivity; [by eexists | by left].
    + pose proof (run_with_handler router_llm agent1_llm agent2_llm
                    state agent2 faq_agent _ Hr eq_refl Hex) as Hrun.
      cbv zeta in Hrun. rewrite Hrun by done.
      eexists _, (ContentStr AGENT2_APOLOGY_TEXT), _. split; [exact Hr|].
      split; [reflexivity|]. split; [reflexivity|]. right; right.
      repeat split; try reflexivity; [by eexists | right; by exists e].
  - destruct Hm as (text & ->). subst ud.
    rewrite (run_router_only router_llm agent1_llm agent2_llm state _ Hr eq_refl).
    eexists _, (ContentStr text), _. split; [exact Hr|]. split; [reflexivity|].
    split; [reflexivity|]. left.
    split; [reflexivity|]. split; [reflexivity|]. split; [reflexivity|].
    destruct He as [-> | [(Hnil & _) | (m' & e & Hlast' & Hllm & ->)]].
    + by left.
    + rewrite Hnil in Hlast. discriminate.
    + rewrite Hlast in Hlast'. injection Hlast' as <-. right. exists e.
      split; [exact Hllm|]. split; [reflexivity|].
      rewrite (route_request_raise _ _ _ _ Hlast Hllm) in Hr. by injection Hr as <-.
Qed.

Lemma first_text_part_concat (parts : list Part) :
  List.length (text_parts_of parts) <= 1 ->
  match text_parts_of parts with
  | [] => ""
  | part :: _ => part_get_text part
  end = spec_text_concat parts.
Proof.
  unfold text_parts_of. induction parts as [|part rest IH]; [done|].
  cbn [spec_text_concat List.filter].
  destruct (dict_type_is "text" part) eqn:Hp; [|exact IH].
  cbn [List.length]. intros Hlen.
  assert (Hrest : text_parts_of rest = []).
  { unfold text_parts_of. destruct (List.filter _ rest); [done | simpl in Hlen; lia]. }
  by rewrite (spec_text_concat_no_text _ Hrest), append_empty_r.
Qed.

(** C1, as the code has it: when the last turn has an image and the
    classifier answers tenancy_faq ([agent2]), the router scans the text of
    the turn's FIRST text part (the empty string if it has none): if none
    of the ten FAQ keywords occurs in it, up to case, the router returns
    visual_issue ([agent1]) and no clarification turn; if one occurs, it
    returns tenancy_faq.  The scanned text is the concatenation of the
    turn's text parts when the turn has at most one text part. *)
Theorem C1_image_faq_keyword_override router_llm state last_message c :
  last (messages state) = Some last_message ->
  has_images_in_message last_message = true ->
  router_llm (prompt_for (messages state) last_message)
    = Return (mkRouterOutput agent2 c) ->
  exists parts,
    content last_message = ContentList parts /\
    let scanned := match text_parts_of parts with
                   | [] => ""
                   | part :: _ => part_get_text part
                   end in
    ((forall k, k ∈ faq_keywords -> ~ occurs_ci k scanned) ->
     route_request router_llm state = Return (mkUpdate (Some "agent1") None None)) /\
    ((exists k, k ∈ faq_keywords /\ occurs_ci k scanned) ->
     route_request router_llm state = Return (mkUpdate (Some "agent2") None None)) /\
    (List.length (text_parts_of parts) <= 1 -> scanned = spec_text_concat parts).
Proof.
  intros Hlast Himg Hllm.
  rewrite (route_request_ok _ _ _ _ _ Hlast Hllm), Himg, override_logic_cases.
  unfold has_images_in_message, get_text_from_message in *.
  destruct (content last_message) as [s|parts]; [discriminate|].
  exists parts. split; [reflexivity|].
  rewrite get_text_loop_first.
  split; [|split; [|apply first_text_part_concat]].
  - intros Hnone. destruct (existsb _ faq_keywords) eqn:Hscan.
    + apply keyword_scan_iff in Hscan as (k & Hk & Hocc). by destruct (Hnone k Hk).
    + by rewrite router_update_not_clarify.
  - intros Hsome. apply keyword_scan_iff in Hsome. rewrite Hsome.
    by rewrite router_update_not_clarify.
Qed.

(** C1 as stated fails: "lease" occurs in the text of the last turn, in its
    second text part, the turn has an image and the classifier says
    tenancy_faq, yet the router returns visual_issue: it scanned the first
    text part only. *)
Lemma C1_counterexample :
  let parts := [text_part "look at this "; image_url_part sample_image_url;
                text_part "it is about my lease"] in
  content split_text_turn = ContentList parts /\
  has_images_in_message split_text_turn = true /\
  spec_text_concat parts = "look at this it is about my lease" /\
  "lease" ∈ faq_keywords /\
  occurs_ci "lease" (spec_text_concat parts) /\
  route_request (llm_answers agent2 None) (mkState [split_text_turn] None None)
    = Return (mkUpdate (Some "agent1") None None).
Proof.
  split; [reflexivity|]. split; [reflexivity|]. split; [reflexivity|].
  split; [apply list_elem_of_here|]. split; [|vm_compute; reflexivity].
  apply contains_lower_occurs_ci; vm_compute; reflexivity.
Qed.

(** C6, as the code has it: after a successful classification the final
    decision is clarify in exactly two cases.  When the classifier itself
    chose clarify, the router appends one assistant turn holding the
    classifier's text, or the fixed generic "how can I help" message when
    that text is empty or absent.  When the classifier chose visual_issue
    and the last turn has no image, the router appends one assistant turn
    holding the classifier's text, or the fixed upload-an-image message
    when that text is empty or absent.  The appended text is never empty.
    When the final decision is visual_issue or tenancy_faq the router
    appends no turn. *)
Theorem C6_clarify_turn router_llm state last_message d c :
  last (messages state) = Some last_message ->
  router_llm (prompt_for (messages state) last_message)
    = Return (mkRouterOutput d c) ->
  exists u,
    route_request router_llm state = Return u /\
    (d = clarify ->
     u = mkUpdate (Some "clarify")
           (Some [AIMessage (ContentStr
              (if truthy_opt c then default "" c else HOW_CAN_I_HELP_TEXT))])
           None) /\
    (d = agent1 -> has_images_in_message last_message = false ->
     u = mkUpdate (Some "clarify")
           (Some [AIMessage (ContentStr
              (if truthy_opt c then default "" c else UPLOAD_IMAGE_TEXT))])
           None) /\
    (upd_agent_decision u = Some "clarify" ->
     (d = clarify \/ (d = agent1 /\ has_images_in_message last_message = false)) /\
     exists text, PyStr.truthy text = true /\
       upd_messages u = Some [AIMessage (ContentStr text)]) /\
    (upd_agent_decision u <> Some "clarify" ->
     (upd_agent_decision u = Some "agent1" \/ upd_agent_decision u = Some "agent2") /\
     upd_messages u = None).
Proof.
  intros Hlast Hllm.
  rewrite (route_request_ok _ _ _ _ _ Hlast Hllm), override_logic_cases.
  destruct d, (has_images_in_message last_message);
    try destruct (existsb _ faq_keywords); try destruct (truthy_opt c) eqn:Hc.
  all: try (rewrite router_update_not_clarify by done;
            eexists; split; [reflexivity|];
            repeat split; try done; first [by left | by right]).
  all: rewrite router_update_clarify
         by (done || (rewrite or_default_eq; by destruct c as [[|]|])).
  all: eexists; split; [reflexivity|].
  all: cbn [default from_option id upd_agent_decision upd_messages];
       rewrite ?or_default_eq, ?Hc.
  all: repeat split; try done; try (by left); try (by right).
  all: eexists; (split; [|reflexivity]); by destruct c as [[|]|].
Qed.

(** C6 as stated fails: the classification succeeds, the final decision is
    clarify and the clarification text is absent, yet the message
    substituted is the upload-an-image one, not the generic one. *)
Lemma C6_counterexample :
  has_images_in_message crack_turn = false /\
  route_request (llm_answers agent1 None) (mkState [crack_turn] None None)
    = Return (mkUpdate (Some "clarify")
                       (Some [AIMessage (ContentStr UPLOAD_IMAGE_TEXT)]) None) /\
  UPLOAD_IMAGE_TEXT <> HOW_CAN_I_HELP_TEXT.
Proof. split; [reflexivity|]. split; [vm_compute; reflexivity | discriminate]. Qed.

(** C7, as the code has it: when a component failed during a request,
    that is, when the final state's error field is set, the chat response
    is ["An error occurred: "] followed by the error field, which is the
    component's prefix followed by the text of the exception it caught.
    The component's fixed apologetic turn is appended to the session's
    conversation, after the user turn, but it is not the response. *)
Theorem C7_error_field_is_the_response router_llm agent1_llm agent2_llm b64encode
    memory session_id query images :
  PyStr.truthy session_id = true ->
  let user := HumanMessage (ContentList (input_message_content b64encode query images)) in
  let res := chat_endpoint router_llm agent1_llm agent2_llm b64encode true
               memory session_id query images in
  exists final,
    outcome (run_graph router_llm agent1_llm agent2_llm
               (request_state b64encode memory session_id query images))
      = Return final /\
    forall err, error final = Some err ->
      snd res = HTTP200 (mkChatResponse ("An error occurred: " +:+ err) session_id) /\
      exists e apology,
        conversation (fst res) session_id
          = conversation memory session_id ++ [user; AIMessage (ContentStr apology)] /\
        "An error occurred: " +:+ err <> apology /\
        (((exists prompt, router_llm prompt = Raise e) /\
          err = "Routing failed: " +:+ exc_str e /\
          apology = ROUTING_APOLOGY_TEXT) \/
         ((exists msgs, agent1_llm msgs = Raise e) /\
          err = "Agent 1 failed: " +:+ exc_str e /\
          apology = AGENT1_APOLOGY_TEXT) \/
         ((exists msgs, agent2_llm msgs = Raise e) /\
          err = "Agent 2 failed: " +:+ exc_str e /\
          apology = AGENT2_APOLOGY_TEXT)).
Proof.
  intros Hsid user res.
  set (st := request_state b64encode memory session_id query images).
  destruct (run_graph_provenance router_llm agent1_llm agent2_llm st user
              (request_state_last b64encode memory session_id query images))
    as (u & reply & final & Hr & Hrun & Hmsgs & Hcases).
  exists final. split; [by rewrite Hrun|]. intros err He.
  assert (Hres : res = (<[session_id := final]> memory,
                        match response_text_of final with
                        | Return t => HTTP200 (mkChatResponse t session_id)
                        | Raise _ => HTTPException 500 "An unexpected server error occurred."
                        end))
    by exact (chat_endpoint_final _ _ _ _ _ _ _ _ _ _ Hsid Hrun).
  assert (Hconv : conversation (fst res) session_id
                  = conversation memory session_id ++ [user; AIMessage reply]).
  { rewrite Hres. cbn [fst]. unfold conversation at 1. rewrite lookup_insert_eq.
    cbn [default from_option id]. rewrite Hmsgs.
    change (messages st) with (conversation memory session_id ++ [user]).
    by rewrite <- app_assoc. }
  assert (Hcause : exists e apology, reply = ContentStr apology /\
     (((exists prompt, router_llm prompt = Raise e) /\
       err = "Routing failed: " +:+ exc_str e /\ apology = ROUTING_APOLOGY_TEXT) \/
      ((exists msgs, agent1_llm msgs = Raise e) /\
       err = "Agent 1 failed: " +:+ exc_str e /\ apology = AGENT1_APOLOGY_TEXT) \/
      ((exists msgs, agent2_llm msgs = Raise e) /\
       err = "Agent 2 failed: " +:+ exc_str e /\ apology = AGENT2_APOLOGY_TEXT))).
  { destruct Hcases as [(_ & _ & _ & Herr) | [(_ & _ & _ & _ & Herr) | (_ & _ & _ & _ & Herr)]];
      (destruct Herr as [Hsame | (e & Hllm & Herr & ->)];
       [rewrite He in Hsame; discriminate|]);
      rewrite He in Herr; injection Herr as ->; exists e; eexists;
      (split; [reflexivity|]).
    - left. split; [eauto | done].
    - right; left. split; [eauto | done].
    - right; right. split; [eauto | done]. }
  destruct Hcause as (e & apology & -> & Hcause).
  split.
  - rewrite Hres. cbn [snd]. rewrite (response_text_of_error final err He); [done|].
    destruct Hcause as [(_ & -> & _) | [(_ & -> & _) | (_ & -> & _)]]; reflexivity.
  - exists e, apology. split; [exact Hconv|]. split; [|exact Hcause].
    destruct Hcause as [(_ & _ & ->) | [(_ & _ & ->) | (_ & _ & ->)]];
      intros Heq; by apply (f_equal (fun s => String.get 0 s)) in Heq.
Qed.

(** C9, as the code has it: one request adds exactly two turns to the
    session's conversation: the request's user turn and then one assistant
    turn.  When the request ends in clarify no handler runs and the
    assistant turn is the one the router returned; otherwise the router
    returns no turn, exactly one handler runs (the issue detector for
    agent1, the FAQ agent for agent2), and the assistant turn is the one
    that handler returned. *)
Theorem C9_two_turns_per_request router_llm agent1_llm agent2_llm b64encode
    memory session_id query images :
  PyStr.truthy session_id = true ->
  let st := request_state b64encode memory session_id query images in
  let user := HumanMessage (ContentList (input_message_content b64encode query images)) in
  let memory' := fst (chat_endpoint router_llm agent1_llm agent2_llm b64encode true
                        memory session_id query images) in
  let r := run_graph router_llm agent1_llm agent2_llm st in
  exists reply u,
    conversation memory' session_id
      = conversation memory session_id ++ [user; AIMessage reply] /\
    List.length (conversation memory' session_id)
      = List.length (conversation memory session_id) + 2 /\
    route_request router_llm st = Return u /\
    ((agent_decision (default empty_state (memory' !! session_id)) = Some "clarify" /\
      handlers_run r = [] /\
      upd_messages u = Some [AIMessage reply]) \/
     (agent_decision (default empty_state (memory' !! session_id)) = Some "agent1" /\
      handlers_run r = [issue_detector] /\
      upd_messages u = None /\
      exists u2, execute_agent1 agent1_llm (apply_update st u) = Return u2 /\
        upd_messages u2 = Some [AIMessage reply]) \/
     (agent_decision (default empty_state (memory' !! session_id)) = Some "agent2" /\
      handlers_run r = [faq_agent] /\
      upd_messages u = None /\
      exists u2, execute_agent2 agent2_llm (apply_update st u) = Return u2 /\
        upd_messages u2 = Some [AIMessage reply])).
Proof.
  intros Hsid st user memory' r.
  destruct (run_graph_provenance router_llm agent1_llm agent2_llm st user
              (request_state_last b64encode memory session_id query images))
    as (u & reply & final & Hr & Hrun & Hmsgs & Hcases).
  assert (Hmem : memory' = <[session_id := final]> memory).
  { unfold memory'. by rewrite (chat_endpoint_final _ _ _ _ _ _ _ _ _ _ Hsid Hrun). }
  assert (Hstored : default empty_state (memory' !! session_id) = final).
  { by rewrite Hmem, lookup_insert_eq. }
  assert (Hconv : conversation memory' session_id
                  = conversation memory session_id ++ [user; AIMessage reply]).
  { unfold conversation at 1. rewrite Hstored, Hmsgs.
    change (messages st) with (conversation memory session_id ++ [user]).
    by rewrite <- app_assoc. }
  exists reply, u. split; [exact Hconv|]. split.
  { rewrite Hconv, length_app. reflexivity. }
  split; [exact Hr|]. rewrite Hstored. unfold handlers_run. fold r in Hcases.
  destruct Hcases as [(Hd & Hex & Hu & _) | [(Hd & Hex & Hu & Hu2 & _) |
                                             (Hd & Hex & Hu & Hu2 & _)]];
    rewrite Hex.
  - left. done.
  - right; left. done.
  - right; right. done.
Qed.

(** ** The four statements above at concrete requests *)

(** Scenario D: mold on the ceiling, one image, classifier says tenancy_faq:
    the override fires.  With "LANDLORD" in the text it does not. *)
Lemma C1_witness :
  route_request (llm_answers agent2 (Some "Which tenancy topic?"))
                (mkState [mold_turn] None None)
    = Return (mkUpdate (Some "agent1") None None)
  /\
  route_request (llm_answers agent2 None) (mkState [landlord_turn] None None)
    = Return (mkUpdate (Some "agent2") None None).
Proof.
  split.
  - destruct (C1_image_faq_keyword_override
                (llm_answers agent2 (Some "Which tenancy topic?"))
                (mkState [mold_turn] None None) mold_turn
                (Some "Which tenancy topic?") eq_refl eq_refl eq_refl)
      as (parts & Hparts & Hnone & _ & _).
    injection Hparts as <-. apply Hnone. intros k Hk Hocc.
    assert (H : existsb (fun keyword =>
                  PyStr.contains keyword (PyStr.lower "there's mold on my ceiling"))
                  faq_keywords = true)
      by (apply keyword_scan_iff; exists k; split; assumption).
    vm_compute in H. discriminate H.
  - destruct (C1_image_faq_keyword_override
                (llm_answers agent2 None)
                (mkState [landlord_turn] None None) landlord_turn
                None eq_refl eq_refl eq_refl)
      as (parts & Hparts & _ & Hsome & _).
    injection Hparts as <-. apply Hsome.
    apply (keyword_scan_iff "Is my LANDLORD allowed to leave it like this?").
    vm_compute. reflexivity.
Defined.

(** The classifier says clarify and gives no text: the generic message is
    appended.  It says visual_issue for a turn without image and gives an
    empty text: the upload-an-image message is appended. *)
Lemma C6_witness :
  route_request (llm_answers clarify None) (mkState [crack_turn] None None)
    = Return (mkUpdate (Some "clarify")
                       (Some [AIMessage (ContentStr HOW_CAN_I_HELP_TEXT)]) None)
  /\
  route_request (llm_answers agent1 (Some "")) (mkState [crack_turn] None None)
    = Return (mkUpdate (Some "clarify")
                       (Some [AIMessage (ContentStr UPLOAD_IMAGE_TEXT)]) None).
Proof.
  split.
  - destruct (C6_clarify_turn (llm_answers clarify None)
                (mkState [crack_turn] None None) crack_turn clarify None
                eq_refl eq_refl) as (u & Hr & Hclarify & _).
    rewrite Hr, (Hclarify eq_refl). reflexivity.
  - destruct (C6_clarify_turn (llm_answers agent1 (Some ""))
                (mkState [crack_turn] None None) crack_turn agent1 (Some "")
                eq_refl eq_refl) as (u & Hr & _ & Hoverride & _).
    rewrite Hr, (Hoverride eq_refl eq_refl). reflexivity.
Defined.

(** The classifier call times out: the response carries the exception
    text; the apology is stored as the assistant turn. *)
Lemma C7_witness :
  let res := chat_endpoint llm_times_out (agent_replies "ok") (agent_replies "ok")
               (fun b => b) true ∅ "s1" "hello" [] in
  snd res = HTTP200 (mkChatResponse
                       "An error occurred: Routing failed: Request timed out." "s1") /\
  conversation (fst res) "s1"
    = [HumanMessage (ContentList [text_part "hello"]);
       AIMessage (ContentStr ROUTING_APOLOGY_TEXT)].
Proof.
  intros res.
  destruct (C7_error_field_is_the_response llm_times_out (agent_replies "ok")
              (agent_replies "ok") (fun b => b) ∅ "s1" "hello" [] eq_refl)
    as (final & Hout & Hall).
  vm_compute in Hout. injection Hout as <-.
  destruct (Hall "Routing failed: Request timed out." eq_refl)
    as (Hresp & e & apology & Hconv & _ & Hcause).
  split; [exact Hresp|].
  destruct Hcause as [(_ & _ & ->) | [([msgs Hm] & _) | ([msgs Hm] & _)]];
    [exact Hconv | discriminate Hm | discriminate Hm].
Defined.

(** A question routed to the FAQ agent: two turns are added, the second
    one by that handler. *)
Lemma C9_witness :
  let memory' := fst (chat_endpoint (llm_answers agent2 None) (agent_replies "ok")
                        (agent_replies "A deposit is...")
                        (fun b => b) true ∅ "s1" "what is a deposit" []) in
  let r := run_graph (llm_answers agent2 None) (agent_replies "ok")
             (agent_replies "A deposit is...")
             (request_state (fun b => b) ∅ "s1" "what is a deposit" []) in
  conversation memory' "s1"
    = [HumanMessage (ContentList [text_part "what is a deposit"]);
       AIMessage (ContentStr "A deposit is...")] /\
  List.length (conversation memory' "s1") = List.length (conversation ∅ "s1") + 2 /\
  handlers_run r = [faq_agent].
Proof.
  intros memory' r.
  destruct (C9_two_turns_per_request (llm_answers agent2 None) (agent_replies "ok")
              (agent_replies "A deposit is...") (fun b => b) ∅ "s1"
              "what is a deposit" [] eq_refl)
    as (reply & u & Hconv & Hlen & _ & Hcases).
  split; [|split; [exact Hlen|]].
  - assert (Hreply : reply = ContentStr "A deposit is...").
    { vm_compute in Hconv. by injection Hconv as <-. }
    unfold memory'. rewrite Hconv, Hreply. reflexivity.
  - destruct Hcases as [(Hd & _) | [(Hd & _) | (_ & Hh & _)]];
      [vm_compute in Hd; discriminate Hd | vm_compute in Hd; discriminate Hd | exact Hh].
Defined.
